(** * KichwaApp: the information viewer [Kichwa_info_Reconociendonos.py]

    A shallow embedding of the program's content store, style table,
    tab renderers and start-up sequence, followed by the properties
    proved about them.

    Conventions of the embedding.
    - Python [str] is [string]; the source is UTF-8, so a non-ASCII
      letter occupies several bytes.  The only character-level
      operations of the program, [split(' ')] and [strip('()')], look
      for ASCII characters, which never occur inside a multi-byte
      sequence.
    - A [dict] is an association list in insertion order, the order
      in which [.items()] walks it.  No literal of the program repeats
      a key, so the first binding of a key is its only one.
    - A method is a function from the state of [self] to an outcome
      and the state it leaves; when an exception is raised the state
      is the one reached at the [raise], and the rest of the method is
      skipped.
    - Of the toolkit calls the model keeps what carries content or can
      raise: texts, style names, colours looked up in [self.colors],
      text heights and grid positions.  Fonts, paddings, anchors and
      wrap lengths are constants passed through to Tk and are left
      out; the toolkit itself is assumed not to fail. *)

From Stdlib Require Import String Ascii List Arith Bool Lia.
Import ListNotations.
Open Scope string_scope.
Set Warnings "-register-all".

(** ** Python values and exceptions *)

Module Py.

Inductive PyErr : Type :=
| KeyError (key : string)
| AttributeError (name : string)
| NameError (name : string)
| IndexError
| TypeError
| ValueError.

Inductive result (A : Type) : Type :=
| Ok (a : A)
| Err (e : PyErr).
Arguments Ok {A} a.
Arguments Err {A} e.

Definition rbind {A B} (r : result A) (k : A -> result B) : result B :=
  match r with
  | Ok a => k a
  | Err e => Err e
  end.

Definition is_KeyError {A} (r : result A) : bool :=
  match r with Err (KeyError _) => true | _ => false end.

(** The nested literal returned by [load_kichwa_data] is made of
    strings, lists and dictionaries with string keys; [VNone] is
    what a method without a [return] yields. *)
Inductive Value : Type :=
| VNone
| VStr (s : string)
| VList (l : list Value)
| VDict (d : list (string * Value)).

Fixpoint assoc {A} (k : string) (d : list (string * A)) : option A :=
  match d with
  | [] => None
  | (k', v) :: d' => if String.eqb k k' then Some v else assoc k d'
  end.

Definition keys {A} (d : list (string * A)) : list string := map fst d.

(** [d[k]] on a dictionary: [KeyError] when the key is absent. *)
Definition dict_getitem {A} (d : list (string * A)) (k : string) : result A :=
  match assoc k d with
  | Some v => Ok v
  | None => Err (KeyError k)
  end.

(** [v[k]] with a string subscript. *)
Definition getitem (v : Value) (k : string) : result Value :=
  match v with
  | VDict d => dict_getitem d k
  | _ => Err TypeError
  end.

(** [v.items()]. *)
Definition items (v : Value) : result (list (string * Value)) :=
  match v with
  | VDict d => Ok d
  | _ => Err (AttributeError "items")
  end.

(** Iteration over a list value ([for x in v], [enumerate(v)]).  The
    program only iterates over lists; other shapes are reported as
    [TypeError]. *)
Definition iter (v : Value) : result (list Value) :=
  match v with
  | VList l => Ok l
  | _ => Err TypeError
  end.

(** A value used as the text of a widget; the program only ever
    passes strings. *)
Definition as_str (v : Value) : result string :=
  match v with
  | VStr s => Ok s
  | _ => Err TypeError
  end.

(** The unpacking [(spanish, kichwa, pron)] of one vocabulary row:
    [ValueError] unless the row has exactly three entries. *)
Definition unpack3 (v : Value) : result (Value * Value * Value) :=
  match v with
  | VList [a; b; c] => Ok (a, b, c)
  | VList _ => Err ValueError
  | _ => Err TypeError
  end.

Fixpoint enumerate_from {A} (i : nat) (l : list A) : list (nat * A) :=
  match l with
  | [] => []
  | x :: l' => (i, x) :: enumerate_from (S i) l'
  end.

Definition enumerate {A} (l : list A) : list (nat * A) := enumerate_from 0 l.

(** [s.split(sep)] for a one-character separator: every occurrence
    of [sep] cuts, empty pieces are kept, and the result is never
    empty. *)
Fixpoint split (sep : ascii) (s : string) : list string :=
  match s with
  | EmptyString => [EmptyString]
  | String c r =>
      if Ascii.eqb c sep then EmptyString :: split sep r
      else match split sep r with
           | [] => [String c EmptyString]
           | h :: t => String c h :: t
           end
  end.

Fixpoint mem_ascii (c : ascii) (chars : string) : bool :=
  match chars with
  | EmptyString => false
  | String c' r => Ascii.eqb c c' || mem_ascii c r
  end.

Fixpoint lstrip (chars s : string) : string :=
  match s with
  | EmptyString => EmptyString
  | String c r => if mem_ascii c chars then lstrip chars r else s
  end.

Fixpoint rstrip (chars s : string) : string :=
  match s with
  | EmptyString => EmptyString
  | String c r =>
      match rstrip chars r with
      | EmptyString => if mem_ascii c chars then EmptyString else String c EmptyString
      | r' => String c r'
      end
  end.

(** [s.strip(chars)]: drops the leading and the trailing characters
    that belong to [chars]. *)
Definition strip (chars s : string) : string := rstrip chars (lstrip chars s).

(** [l[i]] on a list: [IndexError] when [i] is out of range. *)
Definition index {A} (l : list A) (i : nat) : result A :=
  match nth_error l i with
  | Some x => Ok x
  | None => Err IndexError
  end.

End Py.
Import Py.

(** ** The content store *)

(** [KichwaInfoSystem.load_kichwa_data] (second definition): the
    literal dictionary, topic by topic. *)
Definition load_kichwa_data : Value :=
  VDict [
    ("informacion_general",
       VDict [
         ("introduccion",
            VStr "Los Kichwas constituyen el grupo indígena más numeroso de Ecuador. Son herederos de una rica tradición cultural que ha evolucionado desde tiempos precolombinos, fusionando elementos andinos ancestrales con influencias posteriores. Se caracterizan por mantener viva su identidad a través de su idioma, prácticas comunitarias, vestimenta tradicional, artesanías, música y cosmovisión.");
         ("historia",
            VStr "Los Kichwas ecuatorianos son descendientes de los pueblos que habitaban la región andina antes de la llegada de los incas y los españoles. Durante el Imperio Inca (siglo XV), muchos grupos indígenas fueron 'kichwaizados' como parte de la política de unificación cultural. Con la colonización española, los Kichwas enfrentaron opresión y transformaciones sociales profundas, pero lograron preservar elementos fundamentales de su cultura. Durante los siglos XX y XXI, han protagonizado importantes movimientos de reivindicación política y cultural.");
         ("distribucion_geografica",
            VStr "Los pueblos Kichwas se distribuyen principalmente en la región andina (Sierra) y en partes de la Amazonía ecuatoriana. Cada región presenta variaciones culturales específicas que reflejan adaptaciones a diferentes entornos ecológicos y procesos históricos particulares.");
         ("caracteristicas_culturales",
            VList [
              VStr "Organización social basada en comunidades y el ayllu (familia extendida).";
              VStr "Economía tradicional centrada en la agricultura, complementada con ganadería y artesanía.";
              VStr "Prácticas de reciprocidad y trabajo comunitario (minga).";
              VStr "Vestimenta distintiva que varía según la región, con elementos simbólicos.";
              VStr "Celebración de fiestas vinculadas al calendario agrícola y religioso."])]);
    ("regiones",
       VDict [
         ("introduccion",
            VStr "Los Kichwas ecuatorianos se distribuyen en distintas regiones geográficas, cada una con características culturales particulares que reflejan adaptaciones a diferentes entornos ecológicos.");
         ("pueblos",
            VDict [
              ("Kichwas de la Sierra",
                 VDict [
                   ("descripcion",
                      VStr "Habitan las provincias andinas desde Imbabura hasta Loja. Se caracterizan por sus tradiciones agrícolas, textiles y cerámicas. Cada comunidad presenta variaciones en vestimenta, dialectos y prácticas culturales específicas.");
                   ("comunidades",
                      VList [
                        VStr "Otavalo";
                        VStr "Karanki";
                        VStr "Kayambi";
                        VStr "Kitu Kara";
                        VStr "Panzaleo";
                        VStr "Chibuleo";
                        VStr "Salasaka";
                        VStr "Kisapincha";
                        VStr "Tomabela";
                        VStr "Puruhá";
                        VStr "Kañari";
                        VStr "Saraguro"])]);
              ("Kichwas de la Amazonía",
                 VDict [
                   ("descripcion",
                      VStr "Se encuentran principalmente en las provincias de Napo, Pastaza, Orellana y Sucumbíos. Su cultura refleja una profunda conexión con el entorno selvático, combinando prácticas ancestrales con adaptaciones más recientes.");
                   ("comunidades",
                      VList [VStr "Napo Runa"; VStr "Pastaza Runa"; VStr "Canelos"; VStr "Quijos"])])])]);
    ("idioma",
       VDict [
         ("descripcion_general",
            VStr "El Kichwa o Quichua (Runa Shimi - 'lengua de la gente') es una variante del quechua, familia lingüística que se extiende por varios países andinos. En Ecuador, presenta características propias que lo diferencian de otras variantes regionales.");
         ("caracteristicas",
            VDict [
              ("Estructura gramatical",
                 VStr "Lengua aglutinante donde las palabras se forman agregando sufijos a las raíces. El orden básico de la oración es Sujeto-Objeto-Verbo.");
              ("Fonología",
                 VStr "Sistema vocálico de tres fonemas (a, i, u) y consonantes que incluyen sonidos particulares como el sonido /sh/ y consonantes glotalizadas.");
              ("Léxico",
                 VStr "Rico en términos relacionados con la naturaleza, agricultura y relaciones sociales. Incluye numerosos conceptos que reflejan su cosmovisión única.")]);
         ("variaciones_dialectales",
            VStr "Existen importantes diferencias dialectales entre el Kichwa de la Sierra y el de la Amazonía. Incluso dentro de la Sierra, hay variaciones notables entre provincias. El dialecto de Imbabura, por ejemplo, difiere del hablado en Chimborazo o Cañar.");
         ("vocabulario_basico",
            VList [
              VList [VStr "Hola"; VStr "Imanalla"; VStr "Imanalla (imanalya)"];
              VList [VStr "Gracias"; VStr "Yupaychani"; VStr "Yupaychani (yupay-cha-ni)"];
              VList [VStr "Sí"; VStr "Ari"; VStr "Ari"];
              VList [VStr "No"; VStr "Mana"; VStr "Mana"];
              VList [VStr "Agua"; VStr "Yaku"; VStr "Yaku"];
              VList [VStr "Tierra"; VStr "Allpa"; VStr "Alypa"];
              VList [VStr "Sol"; VStr "Inti"; VStr "Inti"];
              VList [VStr "Luna"; VStr "Killa"; VStr "Kilya"];
              VList [VStr "Hombre"; VStr "Kari"; VStr "Kari"];
              VList [VStr "Mujer"; VStr "Warmi"; VStr "Warmi"]]);
         ("estado_actual",
            VStr "El Kichwa ecuatoriano es reconocido como idioma oficial de relación intercultural en la Constitución de 2008. Sin embargo, enfrenta desafíos para su preservación debido a factores como la discriminación histórica, la migración y la influencia dominante del español. Existen iniciativas educativas bilingües y esfuerzos para su revitalización, incluidos programas de educación intercultural bilingüe implementados por el Estado y organizaciones indígenas.")]);
    ("tradiciones",
       VDict [
         ("introduccion",
            VStr "Las tradiciones y costumbres de los pueblos Kichwas reflejan una cosmovisión única que integra elementos ancestrales con influencias posteriores. Estas prácticas culturales transmiten valores comunitarios y mantienen viva la identidad colectiva.");
         ("festividades",
            VDict [
              ("Inti Raymi (Fiesta del Sol)",
                 VStr "Celebrada en el solsticio de junio, marca el inicio del nuevo año agrícola. Incluye bailes, música, rituales de purificación y agradecimiento a la Pachamama (Madre Tierra) por las cosechas.");
              ("Pawkar Raymi",
                 VStr "Fiesta del florecimiento celebrada en febrero/marzo. Coincide con el carnaval y está asociada con el inicio de la floración del maíz.");
              ("Kulla Raymi",
                 VStr "Celebrada en septiembre, honra a la fertilidad femenina, la luna y la preparación de la tierra para nuevos cultivos.");
              ("Kapak Raymi",
                 VStr "Celebrada en diciembre, marca el solsticio de invierno y la renovación del poder comunal y político.")]);
         ("vestimenta",
            VStr "La vestimenta tradicional varía según la región pero mantiene elementos identificativos propios. Los hombres suelen usar poncho, sombrero y pantalón, mientras las mujeres visten anaco (falda), blusa bordada, fachalina (chal) y variedad de accesorios. Cada prenda tiene significados simbólicos relacionados con la identidad, estatus social y conexión comunitaria. Los colores y diseños transmiten mensajes sobre la procedencia, estado civil y posición en la comunidad.");
         ("artesanias",
            VDict [
              ("Textiles",
                 VStr "Los textiles Kichwas son reconocidos por sus técnicas, diseños y simbolismo. Destacan los tejidos de Otavalo, elaborados en telares tradicionales con motivos geométricos que representan elementos de su cosmología.");
              ("Cerámica",
                 VStr "La cerámica Kichwa se caracteriza por diseños que incorporan elementos de la naturaleza y símbolos ancestrales. Se utiliza tanto para fines utilitarios como ceremoniales.")]);
         ("musica_danza",
            VStr "La música y danza Kichwa expresan la conexión con la naturaleza, ciclos agrícolas y momentos importantes del ciclo vital. Géneros como el sanjuanito, yaraví y danzante acompañan celebraciones comunitarias y rituales. Los bailes suelen realizarse en círculos, representando la concepción cíclica del tiempo y la vida comunitaria.");
         ("instrumentos_musicales",
            VList [
              VStr "Rondador (flauta de pan)";
              VStr "Pingullo (flauta vertical)";
              VStr "Bocina (instrumento de viento hecho de caña)";
              VStr "Chajchas (sonajeros)";
              VStr "Bombo (tambor)";
              VStr "Charango (instrumento de cuerda)"])]);
    ("cosmovision",
       VDict [
         ("introduccion",
            VStr "La cosmovisión Kichwa se basa en una comprensión del universo como un todo interconectado donde seres humanos, naturaleza y energías espirituales coexisten en relación recíproca. Esta visión del mundo orienta sus prácticas culturales, sociales y espirituales.");
         ("principios_fundamentales",
            VDict [
              ("Sumak Kawsay (Buen Vivir)",
                 VStr "Filosofía de vida que busca la armonía entre los seres humanos y la naturaleza. Propone un modelo de bienestar colectivo basado en la reciprocidad y respeto.");
              ("Relacionalidad",
                 VStr "Principio que establece que todo está conectado, nada existe aisladamente. Las personas, comunidades, naturaleza y cosmos forman una red de relaciones interdependientes.");
              ("Complementariedad",
                 VStr "Concepto que reconoce que los opuestos no se excluyen sino que se complementan y necesitan mutuamente. Se refleja en el par hombre-mujer, sol-luna, día-noche.")]);
         ("relacion_naturaleza",
            VStr "Para los Kichwas, la naturaleza (Pachamama) es un ser vivo con el que se mantiene una relación de reciprocidad y respeto. No se considera a la naturaleza como un recurso a explotar, sino como una madre que sustenta la vida y merece veneración. Antes de tomar de ella, se pide permiso mediante rituales y ofrendas específicas.");
         ("medicina_tradicional",
            VStr "La medicina Kichwa integra conocimientos botánicos, rituales de sanación y comprensión de las energías. Los yachaks (sabios) y parteras cumplen roles fundamentales como mediadores entre el mundo material y espiritual. Las prácticas incluyen el uso de plantas medicinales, limpias energéticas y rituales que buscan restaurar el equilibrio entre cuerpo, mente y espíritu.")]);
    ("diseno_cultural",
       VDict [
         ("introduccion",
            VStr "Los elementos estéticos de la cultura Kichwa reflejan su cosmovisión, historia y relación con el entorno. Colores, formas y motivos transmiten significados profundos relacionados con su identidad cultural.");
         ("significado_colores",
            VDict [
              ("Rojo (Puka)",
                 VStr "Representa la tierra, la sangre, la fuerza y la vitalidad. Simboliza el poder y la energía de la Pachamama.");
              ("Dorado/Amarillo (Killu)",
                 VStr "Asociado con el sol (Inti), la abundancia, las cosechas y la riqueza espiritual.");
              ("Azul (Ankas)",
                 VStr "Simboliza el agua, el cielo y el espacio. Representa la sabiduría y el universo.");
              ("Verde (Waylla)",
                 VStr "Representa la naturaleza, las plantas y la renovación. Símbolo de fertilidad y vida.");
              ("Negro (Yana)",
                 VStr "Asociado con la oscuridad primordial, el misterio y la transformación.");
              ("Blanco (Yurak)",
                 VStr "Simboliza la pureza, la claridad y la conexión con el mundo espiritual.")]);
         ("chakana",
            VStr "La chakana (cruz andina) es un símbolo central en la cosmovisión Kichwa. Representa la conexión entre los mundos superior e inferior, así como los cuatro elementos y direcciones. Su diseño encarna el principio de ordenamiento del cosmos.");
         ("disenos_textiles",
            VStr "Los textiles Kichwas incorporan diseños geométricos con significados específicos: espirales (ciclos de vida), zigzags (montañas y caminos), rombos (fertilidad), entre otros. Cada motivo transmite aspectos de su historia, territorio y concepción del universo.")])].

(** ** The toolkit surface *)

Module Tk.

(** What a renderer leaves on a surface.  [Grid] records a
    [.grid(row=, column=)] placement; everything else is packed in
    emission order. *)
Inductive Widget : Type :=
| Label (text : string) (style : option string) (foreground : option string)
| ScrolledText (content : string) (height : nat) (background foreground : string)
| Frame (children : list Widget)
| Grid (row column : nat) (w : Widget).

(** One page of the notebook: the text given to [notebook.add], the
    background of its canvas once created, and the children of its
    scrollable frame. *)
Record Tab : Type := mkTab {
  tab_text : string;
  tab_canvas : option string;
  tab_body : list Widget
}.

(** Calls on [ttk.Style]. *)
Inductive StyleRule : Type :=
| Configure (name : string) (options : list (string * string))
| Map (name : string) (options : list (string * (string * string))).

Record Root : Type := mkRoot {
  root_title : string;
  root_geometry : string;
  root_minsize : nat * nat;
  root_bg : option string
}.

End Tk.
Import Tk.

(** ** The application object *)

(** The module defines the class twice under one name. *)
Inductive ClassId : Type := First | Second.

(** The attributes of [self].  An attribute that has not been
    assigned yet is [None]; reading it raises [AttributeError].
    [trace] is ghost state: the methods entered so far, with the class
    whose body ran. *)
Record App : Type := mkApp {
  root : option Root;
  kichwa_data : option Value;
  colors : option (list (string * string));
  style : option (list StyleRule);
  title_label : option string;
  notebook : option (list Tab);
  status_label : option string;
  about_button : option string;
  trace : list (ClassId * string)
}.

Definition set_root (r : Root) (s : App) : App :=
  mkApp (Some r) (kichwa_data s) (colors s) (style s) (title_label s)
        (notebook s) (status_label s) (about_button s) (trace s).
Definition set_kichwa_data (d : Value) (s : App) : App :=
  mkApp (root s) (Some d) (colors s) (style s) (title_label s)
        (notebook s) (status_label s) (about_button s) (trace s).
Definition set_colors (c : list (string * string)) (s : App) : App :=
  mkApp (root s) (kichwa_data s) (Some c) (style s) (title_label s)
        (notebook s) (status_label s) (about_button s) (trace s).
Definition set_style (r : list StyleRule) (s : App) : App :=
  mkApp (root s) (kichwa_data s) (colors s) (Some r) (title_label s)
        (notebook s) (status_label s) (about_button s) (trace s).
Definition set_title_label (t : string) (s : App) : App :=
  mkApp (root s) (kichwa_data s) (colors s) (style s) (Some t)
        (notebook s) (status_label s) (about_button s) (trace s).
Definition set_notebook (n : list Tab) (s : App) : App :=
  mkApp (root s) (kichwa_data s) (colors s) (style s) (title_label s)
        (Some n) (status_label s) (about_button s) (trace s).
Definition set_status_label (l : string) (s : App) : App :=
  mkApp (root s) (kichwa_data s) (colors s) (style s) (title_label s)
        (notebook s) (Some l) (about_button s) (trace s).
Definition set_about_button (b : string) (s : App) : App :=
  mkApp (root s) (kichwa_data s) (colors s) (style s) (title_label s)
        (notebook s) (status_label s) (Some b) (trace s).
Definition log (e : ClassId * string) (s : App) : App :=
  mkApp (root s) (kichwa_data s) (colors s) (style s) (title_label s)
        (notebook s) (status_label s) (about_button s) (trace s ++ [e]).

(** The object before [__init__] has assigned anything. *)
Definition blank : App := mkApp None None None None None None None None [].

(** ** Methods as state transformers that may raise *)

Definition M (A : Type) : Type := App -> result A * App.

Definition ret {A} (a : A) : M A := fun s => (Ok a, s).

Definition bind {A B} (m : M A) (k : A -> M B) : M B :=
  fun s => match m s with
           | (Ok a, s') => k a s'
           | (Err e, s') => (Err e, s')
           end.

Definition lift {A} (r : result A) : M A := fun s => (r, s).

Definition raise {A} (e : PyErr) : M A := fun s => (Err e, s).

Declare Scope py_scope.
Delimit Scope py_scope with py.
Notation "x <- m ;; k" := (bind m (fun x => k))
  (at level 61, m at next level, right associativity) : py_scope.
Notation "' p <- m ;; k" := (bind m (fun x => match x with p => k end))
  (at level 61, p pattern, m at next level, right associativity) : py_scope.
Notation "m ;; k" := (bind m (fun _ => k))
  (at level 61, right associativity) : py_scope.
Open Scope py_scope.

Definition get_attr {A} (name : string) (f : App -> option A) : M A :=
  fun s => match f s with
           | Some a => (Ok a, s)
           | None => (Err (AttributeError name), s)
           end.

Definition modify (f : App -> App) : M unit := fun s => (Ok tt, f s).

(** A [for] loop whose body updates local variables [S]. *)
Fixpoint for_fold {A S} (l : list A) (acc : S) (body : S -> A -> M S) : M S :=
  match l with
  | [] => ret acc
  | x :: l' => acc' <- body acc x ;; for_fold l' acc' body
  end.

(** A [for] loop run for its effects. *)
Definition for_each {A} (l : list A) (body : A -> M unit) : M unit :=
  for_fold l tt (fun _ x => body x).

(** [self.kichwa_data[key]]: the topic lookup the specification
    calls [ContentStore.getTopic]. *)
Definition kichwa_data_getitem (key : string) : M Value :=
  d <- get_attr "kichwa_data" kichwa_data ;; lift (getitem d key).

(** [self.colors[name]]: the token lookup the specification calls
    [StyleConfig.resolve]. *)
Definition colors_getitem (name : string) : M string :=
  c <- get_attr "colors" colors ;; lift (dict_getitem c name).

(** *** Surface operations *)

Definition update_last (f : Tab -> Tab) (tabs : list Tab) : list Tab :=
  match rev tabs with
  | [] => []
  | t :: before => rev before ++ [f t]
  end.

(** [frame = ttk.Frame(self.notebook); self.notebook.add(frame, text=...)]. *)
Definition notebook_add (text : string) : M unit :=
  n <- get_attr "notebook" notebook ;;
  modify (set_notebook (n ++ [mkTab text None []])).

(** The canvas, scrollbar and scrollable frame created on the page
    just added; only the canvas takes a colour. *)
Definition create_canvas : M unit :=
  bg <- colors_getitem "background" ;;
  n <- get_attr "notebook" notebook ;;
  modify (set_notebook
            (update_last (fun t => mkTab (tab_text t) (Some bg) (tab_body t)) n)).

(** [w.pack(...)] for a child [w] of the scrollable frame of the
    page under construction. *)
Definition pack (w : Widget) : M unit :=
  n <- get_attr "notebook" notebook ;;
  modify (set_notebook
            (update_last (fun t => mkTab (tab_text t) (tab_canvas t) (tab_body t ++ [w])) n)).

(** The calls that open every [create_*_tab] method. *)
Definition open_tab (text : string) : M unit :=
  notebook_add text ;; create_canvas.

Definition subtitle (text : string) : M unit :=
  pack (Label text (Some "Subtitle.TLabel") None).

(** A read-only [ScrolledText]: created, filled with [content],
    then configured with the background and text colours. *)
Definition scrolled_text (height : nat) (content : result Value) : M Widget :=
  v <- lift content ;;
  t <- lift (as_str v) ;;
  bg <- colors_getitem "background" ;;
  fg <- colors_getitem "text" ;;
  ret (ScrolledText t height bg fg).

(** The two-column grid of bullet rows used for communities and
    instruments. *)
Definition two_columns (l : list Value) : M (list Widget) :=
  r <- for_fold l (0, 0, [])
         (fun '(row, col, cells) x =>
            t <- lift (as_str x) ;;
            let cells := (cells ++ [Grid row col (Label ("• " ++ t) None None)])%list in
            let col := col + 1 in
            if (1 <? col)%nat then ret (row + 1, 0, cells) else ret (row, col, cells)) ;;
  ret (snd r).

(** A bold coloured heading over a description, the body of the
    loops over [.items()]. *)
Definition titled_entry (token : string) (title : string) (desc : Value) : M unit :=
  fg <- colors_getitem token ;;
  d <- lift (as_str desc) ;;
  pack (Frame [Label title None (Some fg); Label d None None]).

(** Style and root-window operations used by [configure_styles]. *)
Definition style_call (r : StyleRule) : M unit :=
  st <- get_attr "style" style ;; modify (set_style (st ++ [r])).

Definition root_configure_bg (bg : string) : M unit :=
  r <- get_attr "root" root ;;
  modify (set_root (mkRoot (root_title r) (root_geometry r) (root_minsize r) (Some bg))).

(** *** Calling a method of [self]

    A class body is a dictionary from method names to bodies; the
    classes of this program have no base class, so [self.name()] finds
    [name] in the dictionary of the class of [self] or raises
    [AttributeError].  No method is recursive, so a dictionary is built
    in layers: the methods that call no method of [self], then
    [create_widgets], then [__init__].  Entering a body is logged in
    [trace]. *)

Definition Method : Type := M Value.

Definition returns_none (m : M unit) : Method := m ;; ret VNone.

Definition call (c : ClassId) (dict : list (string * Method)) (name : string) : M Value :=
  match assoc name dict with
  | Some body => modify (log (c, name)) ;; body
  | None => raise (AttributeError name)
  end.

(** [self.name] read without being called, as in [command=self.show_about]. *)
Definition bound_method (dict : list (string * Method)) (name : string) : M unit :=
  match assoc name dict with
  | Some _ => ret tt
  | None => raise (AttributeError name)
  end.

(** The text of the status bar; [today] stands for
    [datetime.now().strftime('%d-%m-%Y')]. *)
Definition status_text (today : string) : string :=
  "Desarrollado para diseño culturalmente sensible | Fecha: " ++ today.

(** ** The second (later) definition of [KichwaInfoSystem] *)

Module SecondDefinition.

Definition configure_styles : M unit :=
  modify (set_style []) ;;
  modify (set_colors
            [("primary", "#8B2323");
             ("secondary", "#CD853F");
             ("accent", "#FFD700");
             ("background", "#F5F5DC");
             ("text", "#343e40");
             ("highlight", "#228B22")]) ;;
  bg <- colors_getitem "background" ;;
  style_call (Configure "TFrame" [("background", bg)]) ;;
  bg <- colors_getitem "background" ;;
  style_call (Configure "TNotebook" [("background", bg)]) ;;
  bg <- colors_getitem "secondary" ;;
  fg <- colors_getitem "text" ;;
  style_call (Configure "TNotebook.Tab" [("background", bg); ("foreground", fg)]) ;;
  bg <- colors_getitem "primary" ;;
  style_call (Map "TNotebook.Tab"
                [("background", ("selected", bg)); ("foreground", ("selected", "red"))]) ;;
  bg <- colors_getitem "background" ;;
  fg <- colors_getitem "text" ;;
  style_call (Configure "TLabel" [("background", bg); ("foreground", fg)]) ;;
  fg <- colors_getitem "primary" ;;
  style_call (Configure "Title.TLabel" [("foreground", fg)]) ;;
  fg <- colors_getitem "secondary" ;;
  style_call (Configure "Subtitle.TLabel" [("foreground", fg)]) ;;
  bg <- colors_getitem "primary" ;;
  style_call (Configure "TButton" [("background", bg); ("foreground", "red")]) ;;
  bg <- colors_getitem "background" ;;
  root_configure_bg bg.

Definition create_overview_tab : M unit :=
  open_tab "Información General" ;;
  overview_data <- kichwa_data_getitem "informacion_general" ;;
  subtitle "¿Quiénes son los Kichwas?" ;;
  intro_text <- scrolled_text 6 (getitem overview_data "introduccion") ;;
  pack intro_text ;;
  subtitle "Historia" ;;
  history_text <- scrolled_text 8 (getitem overview_data "historia") ;;
  pack history_text ;;
  subtitle "Distribución Geográfica" ;;
  geography_text <- scrolled_text 4 (getitem overview_data "distribucion_geografica") ;;
  pack geography_text ;;
  subtitle "Características Culturales Destacadas" ;;
  caracteristicas <- lift (rbind (getitem overview_data "caracteristicas_culturales") iter) ;;
  for_each (enumerate caracteristicas)
    (fun '(idx, caracteristica) =>
       fg <- colors_getitem "primary" ;;
       t <- lift (as_str caracteristica) ;;
       pack (Frame [Label "•" None (Some fg); Label t None None])).

Definition create_regions_tab : M unit :=
  open_tab "Regiones" ;;
  subtitle "Pueblos Kichwas por Regiones Geográficas" ;;
  regiones <- kichwa_data_getitem "regiones" ;;
  intro_text <- scrolled_text 4 (getitem regiones "introduccion") ;;
  pack intro_text ;;
  regiones <- kichwa_data_getitem "regiones" ;;
  pueblos <- lift (rbind (getitem regiones "pueblos") items) ;;
  for_each pueblos
    (fun '(region, info) =>
       fg <- colors_getitem "primary" ;;
       let region_title := Label region None (Some fg) in
       desc_text <- scrolled_text 4 (getitem info "descripcion") ;;
       let communities_label := Label "Comunidades principales:" None None in
       comunidades <- lift (rbind (getitem info "comunidades") iter) ;;
       cells <- two_columns comunidades ;;
       pack (Frame [region_title; desc_text; communities_label; Frame cells])).

Definition create_language_tab : M unit :=
  open_tab "Idioma" ;;
  subtitle "Kichwa Ecuatoriano (Runa Shimi)" ;;
  lang_data <- kichwa_data_getitem "idioma" ;;
  general_text <- scrolled_text 5 (getitem lang_data "descripcion_general") ;;
  pack general_text ;;
  subtitle "Características Lingüísticas" ;;
  caracteristicas <- lift (rbind (getitem lang_data "caracteristicas") items) ;;
  for_each caracteristicas
    (fun '(feature, desc) => titled_entry "secondary" feature desc) ;;
  subtitle "Vocabulario Básico" ;;
  let headers :=
    [Grid 0 0 (Label "Español" None None);
     Grid 0 1 (Label "Kichwa" None None);
     Grid 0 2 (Label "Pronunciación" None None)] in
  vocabulario <- lift (rbind (getitem lang_data "vocabulario_basico") iter) ;;
  cells <- for_fold (enumerate vocabulario) headers
             (fun cells '(i, row) =>
                '(spanish, kichwa, pron) <- lift (unpack3 row) ;;
                spanish <- lift (as_str spanish) ;;
                kichwa <- lift (as_str kichwa) ;;
                pron <- lift (as_str pron) ;;
                ret (cells ++ [Grid (i + 1) 0 (Label spanish None None);
                               Grid (i + 1) 1 (Label kichwa None None);
                               Grid (i + 1) 2 (Label pron None None)])%list) ;;
  pack (Frame cells) ;;
  subtitle "Estado Actual del Idioma" ;;
  status_text <- scrolled_text 6 (getitem lang_data "estado_actual") ;;
  pack status_text ;;
  subtitle "Variaciones Dialectales" ;;
  dialect_text <- scrolled_text 4 (getitem lang_data "variaciones_dialectales") ;;
  pack dialect_text.

Definition create_traditions_tab : M unit :=
  open_tab "Tradiciones" ;;
  trad_data <- kichwa_data_getitem "tradiciones" ;;
  subtitle "Tradiciones y Costumbres" ;;
  intro_text <- scrolled_text 4 (getitem trad_data "introduccion") ;;
  pack intro_text ;;
  subtitle "Principales Festividades" ;;
  festividades <- lift (rbind (getitem trad_data "festividades") items) ;;
  for_each festividades
    (fun '(festival, desc) => titled_entry "secondary" festival desc) ;;
  subtitle "Vestimenta Tradicional" ;;
  clothing_text <- scrolled_text 6 (getitem trad_data "vestimenta") ;;
  pack clothing_text ;;
  subtitle "Artesanías" ;;
  artesanias <- lift (rbind (getitem trad_data "artesanias") items) ;;
  for_each artesanias
    (fun '(craft, desc) => titled_entry "secondary" craft desc) ;;
  subtitle "Música y Danza" ;;
  music_text <- scrolled_text 5 (getitem trad_data "musica_danza") ;;
  pack music_text ;;
  pack (Label "Instrumentos Musicales Tradicionales" None None) ;;
  instrumentos <- lift (rbind (getitem trad_data "instrumentos_musicales") iter) ;;
  cells <- two_columns instrumentos ;;
  pack (Frame cells).

Definition create_worldview_tab : M unit :=
  open_tab "Cosmovisión" ;;
  cosmo_data <- kichwa_data_getitem "cosmovision" ;;
  subtitle "Cosmovisión Kichwa" ;;
  intro_text <- scrolled_text 4 (getitem cosmo_data "introduccion") ;;
  pack intro_text ;;
  subtitle "Principios Fundamentales" ;;
  principios <- lift (rbind (getitem cosmo_data "principios_fundamentales") items) ;;
  for_each principios
    (fun '(principle, desc) => titled_entry "secondary" principle desc) ;;
  subtitle "Relación con la Naturaleza" ;;
  nature_text <- scrolled_text 6 (getitem cosmo_data "relacion_naturaleza") ;;
  pack nature_text ;;
  subtitle "Medicina Tradicional" ;;
  medicine_text <- scrolled_text 6 (getitem cosmo_data "medicina_tradicional") ;;
  pack medicine_text.

(** The parse of one colour label, as the design tab does it:
    [color.split(' ')[0]] and [color.split(' ')[1].strip('()')]. *)
Definition parse_color (color : string) : result (string * string) :=
  rbind (index (split " "%char color) 0) (fun color_name =>
  rbind (index (split " "%char color) 1) (fun kichwa_part =>
  Ok (color_name, strip "()" kichwa_part))).

Definition create_design_tab : M unit :=
  open_tab "Diseño Cultural" ;;
  design_data <- kichwa_data_getitem "diseno_cultural" ;;
  subtitle "Elementos de Diseño Cultural" ;;
  intro_text <- scrolled_text 4 (getitem design_data "introduccion") ;;
  pack intro_text ;;
  subtitle "Significado de los Colores" ;;
  colores <- lift (rbind (getitem design_data "significado_colores") items) ;;
  for_each colores
    (fun '(color, meaning) =>
       '(color_name, kichwa_name) <- lift (parse_color color) ;;
       titled_entry "secondary" (color_name ++ " - " ++ kichwa_name) meaning) ;;
  subtitle "La Chakana (Cruz Andina)" ;;
  chakana_text <- scrolled_text 4 (getitem design_data "chakana") ;;
  pack chakana_text ;;
  subtitle "Diseños Textiles" ;;
  textile_text <- scrolled_text 4 (getitem design_data "disenos_textiles") ;;
  pack textile_text.

(** The dialog of [show_about] is shown by the toolkit and leaves
    [self] as it is. *)
Definition show_about : M unit := ret tt.

Definition plain_methods : list (string * Method) :=
  [("load_kichwa_data", ret load_kichwa_data);
   ("configure_styles", returns_none configure_styles);
   ("show_about", returns_none show_about);
   ("create_overview_tab", returns_none create_overview_tab);
   ("create_regions_tab", returns_none create_regions_tab);
   ("create_language_tab", returns_none create_language_tab);
   ("create_traditions_tab", returns_none create_traditions_tab);
   ("create_worldview_tab", returns_none create_worldview_tab);
   ("create_design_tab", returns_none create_design_tab)].

Definition create_widgets (today : string) : M unit :=
  modify (set_title_label "Pueblo Kichwa del Ecuador") ;;
  modify (set_notebook []) ;;
  call Second plain_methods "create_overview_tab" ;;
  call Second plain_methods "create_regions_tab" ;;
  call Second plain_methods "create_language_tab" ;;
  call Second plain_methods "create_traditions_tab" ;;
  call Second plain_methods "create_worldview_tab" ;;
  call Second plain_methods "create_design_tab" ;;
  modify (set_status_label (status_text today)) ;;
  bound_method plain_methods "show_about" ;;
  modify (set_about_button "Acerca de").

Definition widget_methods (today : string) : list (string * Method) :=
  plain_methods ++ [("create_widgets", returns_none (create_widgets today))].

Definition __init__ (today : string) : M unit :=
  modify (set_root (mkRoot "Sistema de Información - Kichwas de Ecuador"
                           "900x600" (800, 500) None)) ;;
  data <- call Second (widget_methods today) "load_kichwa_data" ;;
  modify (set_kichwa_data data) ;;
  call Second (widget_methods today) "configure_styles" ;;
  call Second (widget_methods today) "create_widgets" ;;
  ret tt.

Definition methods (today : string) : list (string * Method) :=
  widget_methods today ++ [("__init__", returns_none (__init__ today))].

End SecondDefinition.

(** ** The first (earlier) definition of [KichwaInfoSystem]

    The class statement at the top of the module.  Its body defines
    [__init__], [configure_styles], [create_widgets] and five tab
    methods; it has no [load_kichwa_data], [show_about],
    [create_demographics_tab] or [create_cultural_design_tab], and its
    [create_worldview_tab] stops after the nature paragraph. *)

Module FirstDefinition.

Definition configure_styles : M unit :=
  modify (set_style []) ;;
  modify (set_colors
            [("primary", "#8B2323");
             ("secondary", "#CD853F");
             ("accent", "#FFD700");
             ("background", "#F5F5DC");
             ("text", "#8B2323");
             ("highlight", "#228B22")]) ;;
  bg <- colors_getitem "#8B2323" ;;
  style_call (Configure "TFrame" [("background", bg)]) ;;
  bg <- colors_getitem "#8B2323" ;;
  style_call (Configure "TNotebook" [("background", bg)]) ;;
  bg <- colors_getitem "secondary" ;;
  fg <- colors_getitem "red" ;;
  style_call (Configure "TNotebook.Tab" [("background", bg); ("foreground", fg)]) ;;
  bg <- colors_getitem "primary" ;;
  style_call (Map "TNotebook.Tab"
                [("background", ("selected", bg)); ("foreground", ("selected", "red"))]) ;;
  bg <- colors_getitem "#8B2323" ;;
  fg <- colors_getitem "text" ;;
  style_call (Configure "TLabel" [("background", bg); ("foreground", fg)]) ;;
  fg <- colors_getitem "primary" ;;
  style_call (Configure "Title.TLabel" [("foreground", fg)]) ;;
  fg <- colors_getitem "secondary" ;;
  style_call (Configure "Subtitle.TLabel" [("foreground", fg)]) ;;
  bg <- colors_getitem "#8B2323" ;;
  style_call (Configure "TButton" [("background", bg); ("foreground", "red")]) ;;
  bg <- colors_getitem "#8B2323" ;;
  root_configure_bg bg.

Definition create_overview_tab : M unit :=
  open_tab "Información General" ;;
  overview_data <- kichwa_data_getitem "informacion_general" ;;
  subtitle "¿Quiénes son los Kichwas?" ;;
  intro_text <- scrolled_text 6 (getitem overview_data "introduccion") ;;
  pack intro_text ;;
  subtitle "Historia" ;;
  history_text <- scrolled_text 8 (getitem overview_data "historia") ;;
  pack history_text ;;
  subtitle "Distribución Geográfica" ;;
  geography_text <- scrolled_text 6 (getitem overview_data "distribucion_geografica") ;;
  pack geography_text ;;
  subtitle "Características Culturales Destacadas" ;;
  caracteristicas <- lift (rbind (getitem overview_data "caracteristicas_culturales") iter) ;;
  for_each (enumerate caracteristicas)
    (fun '(idx, caracteristica) =>
       fg <- colors_getitem "primary" ;;
       t <- lift (as_str caracteristica) ;;
       pack (Frame [Label "•" None (Some fg); Label t None None])).

Definition create_regions_tab : M unit :=
  open_tab "Regiones" ;;
  subtitle "Pueblos Kichwas por Regiones Geográficas" ;;
  regiones <- kichwa_data_getitem "regiones" ;;
  intro_text <- scrolled_text 4 (getitem regiones "introduccion") ;;
  pack intro_text ;;
  regiones <- kichwa_data_getitem "regiones" ;;
  pueblos <- lift (rbind (getitem regiones "pueblos") items) ;;
  for_each pueblos
    (fun '(region, info) =>
       fg <- colors_getitem "primary" ;;
       let region_title := Label region None (Some fg) in
       desc_text <- scrolled_text 4 (getitem info "descripcion") ;;
       let communities_label := Label "Comunidades principales:" None None in
       comunidades <- lift (rbind (getitem info "comunidades") iter) ;;
       cells <- two_columns comunidades ;;
       pack (Frame [region_title; desc_text; communities_label; Frame cells])).

Definition create_language_tab : M unit :=
  open_tab "Idioma" ;;
  subtitle "Kichwa Ecuatoriano (Runa Shimi)" ;;
  lang_data <- kichwa_data_getitem "idioma" ;;
  general_text <- scrolled_text 5 (getitem lang_data "descripcion_general") ;;
  pack general_text ;;
  subtitle "Características Lingüísticas" ;;
  caracteristicas <- lift (rbind (getitem lang_data "caracteristicas") items) ;;
  for_each caracteristicas
    (fun '(feature, desc) => titled_entry "secondary" feature desc) ;;
  subtitle "Variaciones Dialectales" ;;
  dialects_text <- scrolled_text 5 (getitem lang_data "variaciones_dialectales") ;;
  pack dialects_text ;;
  subtitle "Vocabulario Básico" ;;
  let headers :=
    [Grid 0 0 (Label "Español" None None);
     Grid 0 1 (Label "Kichwa" None None);
     Grid 0 2 (Label "Pronunciación" None None)] in
  vocabulario <- lift (rbind (getitem lang_data "vocabulario_basico") iter) ;;
  cells <- for_fold (enumerate vocabulario) headers
             (fun cells '(i, row) =>
                '(spanish, kichwa, pron) <- lift (unpack3 row) ;;
                spanish <- lift (as_str spanish) ;;
                fg <- colors_getitem "primary" ;;
                kichwa <- lift (as_str kichwa) ;;
                pron <- lift (as_str pron) ;;
                ret (cells ++ [Grid (i + 1) 0 (Label spanish None None);
                               Grid (i + 1) 1 (Label kichwa None (Some fg));
                               Grid (i + 1) 2 (Label pron None None)])%list) ;;
  pack (Frame cells) ;;
  subtitle "Estado Actual e Iniciativas" ;;
  status_text <- scrolled_text 5 (getitem lang_data "estado_actual") ;;
  pack status_text.

Definition create_traditions_tab : M unit :=
  open_tab "Tradiciones" ;;
  trad_data <- kichwa_data_getitem "tradiciones" ;;
  subtitle "Tradiciones y Costumbres Kichwas" ;;
  intro_text <- scrolled_text 4 (getitem trad_data "introduccion") ;;
  pack intro_text ;;
  subtitle "Festividades Principales" ;;
  festividades <- lift (rbind (getitem trad_data "festividades") items) ;;
  for_each festividades
    (fun '(festival, desc) => titled_entry "primary" festival desc) ;;
  subtitle "Vestimenta Tradicional" ;;
  clothing_text <- scrolled_text 6 (getitem trad_data "vestimenta") ;;
  pack clothing_text ;;
  subtitle "Artesanías" ;;
  artesanias <- lift (rbind (getitem trad_data "artesanias") items) ;;
  for_each artesanias
    (fun '(craft, desc) => titled_entry "secondary" craft desc) ;;
  subtitle "Música y Danza" ;;
  music_text <- scrolled_text 5 (getitem trad_data "musica_danza") ;;
  pack music_text ;;
  let instruments_label := Label "Instrumentos musicales tradicionales:" None None in
  instrumentos <- lift (rbind (getitem trad_data "instrumentos_musicales") iter) ;;
  rows <- for_fold instrumentos [instruments_label]
            (fun rows instrument =>
               t <- lift (as_str instrument) ;;
               ret (rows ++ [Label ("• " ++ t) None None])%list) ;;
  pack (Frame rows).

Definition create_worldview_tab : M unit :=
  open_tab "Cosmovisión" ;;
  worldview_data <- kichwa_data_getitem "cosmovision" ;;
  subtitle "Cosmovisión y Espiritualidad Kichwa" ;;
  intro_text <- scrolled_text 5 (getitem worldview_data "introduccion") ;;
  pack intro_text ;;
  subtitle "Principios Fundamentales" ;;
  principios <- lift (rbind (getitem worldview_data "principios_fundamentales") items) ;;
  for_each principios
    (fun '(principle, desc) => titled_entry "primary" principle desc) ;;
  subtitle "Relación con la Naturaleza" ;;
  nature_text <- scrolled_text 5 (getitem worldview_data "relacion_naturaleza") ;;
  pack nature_text.

Definition plain_methods : list (string * Method) :=
  [("configure_styles", returns_none configure_styles);
   ("create_overview_tab", returns_none create_overview_tab);
   ("create_regions_tab", returns_none create_regions_tab);
   ("create_language_tab", returns_none create_language_tab);
   ("create_traditions_tab", returns_none create_traditions_tab);
   ("create_worldview_tab", returns_none create_worldview_tab)].

Definition create_widgets (today : string) : M unit :=
  modify (set_title_label "Pueblo Kichwa del Ecuador") ;;
  modify (set_notebook []) ;;
  call First plain_methods "create_overview_tab" ;;
  call First plain_methods "create_regions_tab" ;;
  call First plain_methods "create_language_tab" ;;
  call First plain_methods "create_traditions_tab" ;;
  call First plain_methods "create_worldview_tab" ;;
  call First plain_methods "create_demographics_tab" ;;
  call First plain_methods "create_cultural_design_tab" ;;
  modify (set_status_label (status_text today)) ;;
  bound_method plain_methods "show_about" ;;
  modify (set_about_button "Acerca de").

Definition widget_methods (today : string) : list (string * Method) :=
  plain_methods ++ [("create_widgets", returns_none (create_widgets today))].

Definition __init__ (today : string) : M unit :=
  modify (set_root (mkRoot "Sistema de Información - Kichwas de Ecuador"
                           "1000x700" (800, 600) None)) ;;
  data <- call First (widget_methods today) "load_kichwa_data" ;;
  modify (set_kichwa_data data) ;;
  call First (widget_methods today) "configure_styles" ;;
  call First (widget_methods today) "create_widgets" ;;
  ret tt.

Definition methods (today : string) : list (string * Method) :=
  widget_methods today ++ [("__init__", returns_none (__init__ today))].

End FirstDefinition.

(** ** The module: its global names and [main] *)

Inductive Global : Type :=
| GClass (c : ClassId)
| GFunction (name : string).

(** The statements of the module that bind a global name, in file
    order.  (The imports bind the toolkit names and are assumed to
    succeed.) *)
Definition module_statements : list (string * Global) :=
  [("KichwaInfoSystem", GClass First);
   ("KichwaInfoSystem", GClass Second);
   ("main", GFunction "main")].

(** Binding a global name replaces an earlier binding of it. *)
Fixpoint bind_global (b : string * Global) (g : list (string * Global))
  : list (string * Global) :=
  match g with
  | [] => [b]
  | (k, v) :: g' => if String.eqb k (fst b) then b :: g'
                    else (k, v) :: bind_global b g'
  end.

Definition module_globals : list (string * Global) :=
  fold_left (fun g b => bind_global b g) module_statements [].

Definition class_methods (c : ClassId) (today : string) : list (string * Method) :=
  match c with
  | First => FirstDefinition.methods today
  | Second => SecondDefinition.methods today
  end.

(** [name(root)] for a global [name]: the class bound to it when the
    call runs is instantiated and its [__init__] is run. *)
Definition instantiate (name : string) (today : string) : M unit :=
  match assoc name module_globals with
  | Some (GClass c) => call c (class_methods c today) "__init__" ;; ret tt
  | Some (GFunction _) => raise TypeError
  | None => raise (NameError name)
  end.

(** [main()]: [app = KichwaInfoSystem(root)] on a new root window.
    The event loop that follows is the toolkit's. *)
Definition main (today : string) : result unit * App :=
  instantiate "KichwaInfoSystem" today blank.

(** ** Vocabulary of the statements *)

(** The six tab methods of the second definition, by topic, and the
    key of the content store each one reads. *)
Inductive Topic : Type :=
| Overview | Regions | Language | Traditions | Worldview | Design.

Definition all_topics : list Topic :=
  [Overview; Regions; Language; Traditions; Worldview; Design].

Definition render (t : Topic) : M unit :=
  match t with
  | Overview => SecondDefinition.create_overview_tab
  | Regions => SecondDefinition.create_regions_tab
  | Language => SecondDefinition.create_language_tab
  | Traditions => SecondDefinition.create_traditions_tab
  | Worldview => SecondDefinition.create_worldview_tab
  | Design => SecondDefinition.create_design_tab
  end.

Definition topic_key (t : Topic) : string :=
  match t with
  | Overview => "informacion_general"
  | Regions => "regiones"
  | Language => "idioma"
  | Traditions => "tradiciones"
  | Worldview => "cosmovision"
  | Design => "diseno_cultural"
  end.

(** The sections of a topic: the entries of its dictionary. *)
Definition sections (topic : Value) : list (string * Value) :=
  match topic with
  | VDict d => d
  | _ => []
  end.

(** A fresh surface: the same object with an empty notebook. *)
Definition fresh (s : App) : App := set_notebook [] s.

(** A method that changes nothing of [self] but the notebook. *)
Definition keeps_self {A} (m : M A) : Prop :=
  forall s, fresh (snd (m s)) = fresh s.

Definition tab_texts (s : App) : list string :=
  match notebook s with
  | Some tabs => map tab_text tabs
  | None => []
  end.

Definition tab_named (text : string) (s : App) : option Tab :=
  match notebook s with
  | Some tabs => find (fun t => String.eqb (tab_text t) text) tabs
  | None => None
  end.

(** The widget packed right after the subtitle [heading]. *)
Fixpoint block_after (heading : string) (body : list Widget) : option Widget :=
  match body with
  | Label t _ _ :: rest =>
      if String.eqb t heading then hd_error rest else block_after heading rest
  | _ :: rest => block_after heading rest
  | [] => None
  end.

(** The labels gridded in row [r] of a frame, as (column, text), in
    emission order. *)
Definition grid_row (r : nat) (w : Widget) : list (nat * string) :=
  match w with
  | Frame cells =>
      flat_map (fun c => match c with
                         | Grid r' col (Label t _ _) =>
                             if Nat.eqb r' r then [(col, t)] else []
                         | _ => []
                         end) cells
  | _ => []
  end.

Definition grid_cell_count (w : Widget) : nat :=
  match w with
  | Frame cells => length cells
  | _ => 0
  end.

(** [n] successive lookups of one token; a lookup that raises is
    caught and the next one runs on the state it left. *)
Fixpoint resolve_times (n : nat) (name : string) (s : App) : list (result string) :=
  match n with
  | 0 => []
  | S n' => let (r, s') := colors_getitem name s in
            r :: resolve_times n' name s'
  end.

(** The application object that [main] leaves behind. *)
Definition started (today : string) : App := snd (main today).

(** The keys of a dictionary value. *)
Definition store_keys (store : Value) : list string := keys (sections store).

(** The names of the tab methods that one or the other
    [create_widgets] calls, and the calls of them logged in a trace. *)
Definition tab_method_names : list string :=
  ["create_overview_tab"; "create_regions_tab"; "create_language_tab";
   "create_traditions_tab"; "create_worldview_tab"; "create_demographics_tab";
   "create_cultural_design_tab"; "create_design_tab"].

Definition tab_calls (s : App) : list (ClassId * string) :=
  filter (fun e => existsb (String.eqb (snd e)) tab_method_names) (trace s).

(** ** Vocabulary of the further properties *)

Definition succeeded {A} (r : result A) : bool :=
  match r with Ok _ => true | Err _ => false end.

(** [sep.join(pieces)] for a one-character separator. *)
Fixpoint join (sep : ascii) (pieces : list string) : string :=
  match pieces with
  | [] => EmptyString
  | [p] => p
  | p :: rest => (p ++ String sep (join sep rest))%string
  end.

(** The number of occurrences of a character. *)
Fixpoint count_char (c : ascii) (s : string) : nat :=
  match s with
  | EmptyString => 0
  | String c' r => (if Ascii.eqb c' c then 1 else 0) + count_char c r
  end.

(** The text each tab method of the second definition gives to
    [notebook.add]. *)
Definition tab_title (t : Topic) : string :=
  match t with
  | Overview => "Información General"
  | Regions => "Regiones"
  | Language => "Idioma"
  | Traditions => "Tradiciones"
  | Worldview => "Cosmovisión"
  | Design => "Diseño Cultural"
  end.

(** A method keeps a relation [R] between the state it finds and
    the state it leaves, whether it returns or raises. *)
Definition preserves {A} (R : App -> App -> Prop) (m : M A) : Prop :=
  forall s, R s (snd (m s)).

(** The notebook of [s'] has the pages of [s], the last one possibly
    changed but with the same title. *)
Definition same_pages_but_last (s s' : App) : Prop :=
  forall (n : list Tab) (t : Tab),
    notebook s = Some (n ++ [t])%list ->
    exists t', notebook s' = Some (n ++ [t'])%list /\ tab_text t' = tab_text t.

(** The six colours that the second [configure_styles] assigns. *)
Definition palette : list (string * string) :=
  [("primary", "#8B2323"); ("secondary", "#CD853F"); ("accent", "#FFD700");
   ("background", "#F5F5DC"); ("text", "#343e40"); ("highlight", "#228B22")].

(** Bullet rows placed from position [i] on: item [i] of a
    two-column grid sits in row [i / 2], column [i mod 2]. *)
Fixpoint place_from (i : nat) (texts : list string) : list Widget :=
  match texts with
  | [] => []
  | t :: rest =>
      Grid (i / 2) (i mod 2) (Label ("• " ++ t) None None) :: place_from (S i) rest
  end.

(** The object [s] with the page under construction, [title] with
    canvas [canvas] and blocks [body], after the pages [n]. *)
Definition with_page (s : App) (n : list Tab) (title : string)
  (canvas : option string) (body : list Widget) : App :=
  set_notebook (n ++ [mkTab title canvas body]) s.

Definition subtitle_label (text : string) : Widget :=
  Label text (Some "Subtitle.TLabel") None.

(** The block of one bullet of the overview page and of one titled
    entry. *)
Definition bullet (fg : string) (text : string) : Widget :=
  Frame [Label "•" None (Some fg); Label text None None].

Definition entry (fg : string) (title desc : string) : Widget :=
  Frame [Label title None (Some fg); Label desc None None].

(** The strings among a list of values. *)
Definition texts_of (l : list Value) : list string :=
  flat_map (fun v => match v with VStr t => [t] | _ => [] end) l.

(** A dictionary of strings, a vocabulary row and the vocabulary
    list, as values. *)
Definition dict_of_strings (d : list (string * string)) : Value :=
  VDict (map (fun p => (fst p, VStr (snd p))) d).

Definition row_value (r : string * string * string) : Value :=
  let '(spanish, kichwa, pron) := r in VList [VStr spanish; VStr kichwa; VStr pron].

(** The cells of the vocabulary rows, the first of them in grid
    row [i + 1]. *)
Fixpoint vocab_cells_from (i : nat) (rows : list (string * string * string))
  : list Widget :=
  match rows with
  | [] => []
  | (spanish, kichwa, pron) :: rest =>
      Grid (i + 1) 0 (Label spanish None None)
      :: Grid (i + 1) 1 (Label kichwa None None)
      :: Grid (i + 1) 2 (Label pron None None)
      :: vocab_cells_from (S i) rest
  end.

Definition vocab_headers : list Widget :=
  [Grid 0 0 (Label "Español" None None);
   Grid 0 1 (Label "Kichwa" None None);
   Grid 0 2 (Label "Pronunciación" None None)].

(** A colour of the design page: Spanish name, Kichwa name and
    meaning; its label in the store, and whether the two names can be
    told apart again. *)
Definition color_label (col : string * string * string) : string :=
  let '(name, kichwa, _) := col in (name ++ " (" ++ kichwa ++ ")")%string.

Definition color_value (col : string * string * string) : string * Value :=
  (color_label col, VStr (snd col)).

Definition color_entry (fg : string) (col : string * string * string) : Widget :=
  let '(name, kichwa, meaning) := col in
  entry fg (name ++ " - " ++ kichwa)%string meaning.

Definition well_formed_color (col : string * string * string) : Prop :=
  let '(name, kichwa, _) := col in
  mem_ascii " " name = false /\ mem_ascii " " kichwa = false /\
  lstrip "()" kichwa = kichwa /\ rstrip "()" kichwa = kichwa.

(** A region of the regions page: name, description and
    communities; its entry in the store and its block on the page. *)
Definition region_value (r : string * string * list string) : string * Value :=
  let '(name, desc, communities) := r in
  (name, VDict [("descripcion", VStr desc);
                ("comunidades", VList (map VStr communities))]).

Definition region_block (pr bg fg : string) (r : string * string * list string)
  : Widget :=
  let '(name, desc, communities) := r in
  Frame [Label name None (Some pr);
         ScrolledText desc 4 bg fg;
         Label "Comunidades principales:" None None;
         Frame (place_from 0 communities)].

(** Reading a store back: the string entries of a dictionary, the
    rows of three strings of a list, the regions and the colours. *)
Definition pairs_of (v : Value) : list (string * string) :=
  flat_map (fun p => match snd p with VStr t => [(fst p, t)] | _ => [] end)
           (sections v).

Definition list_items (v : Value) : list Value :=
  match v with
  | VList l => l
  | _ => []
  end.

Definition rows_of (l : list Value) : list (string * string * string) :=
  flat_map (fun v => match v with
                     | VList [VStr a; VStr b; VStr d] => [(a, b, d)]
                     | _ => []
                     end) l.

Definition regions_of (v : Value) : list (string * string * list string) :=
  flat_map (fun p => match snd p with
                     | VDict [(_, VStr desc); (_, VList communities)] =>
                         [(fst p, desc, texts_of communities)]
                     | _ => []
                     end)
           (sections v).

Definition colors_of (v : Value) : list (string * string * string) :=
  flat_map (fun p => match SecondDefinition.parse_color (fst p), snd p with
                     | Ok (name, kichwa), VStr meaning => [(name, kichwa, meaning)]
                     | _, _ => []
                     end)
           (sections v).

(** A value looked up along a path of keys; [VNone] when a key is
    missing. *)
Definition at_path (v : Value) (path : list string) : Value :=
  fold_left (fun v k => match getitem v k with Ok x => x | Err _ => VNone end) path v.

(** Two objects that differ only in that the notebook of the first
    holds the pages [n] before the pages of the second, and a method
    that cannot tell them apart. *)
Definition same_but_prefix (n : list Tab) (s1 s2 : App) : Prop :=
  fresh s1 = fresh s2 /\
  exists p, p <> [] /\ notebook s2 = Some p /\ notebook s1 = Some (n ++ p)%list.

Definition page_local {A} (n : list Tab) (m : M A) : Prop :=
  forall s1 s2, same_but_prefix n s1 s2 ->
                fst (m s1) = fst (m s2) /\
                same_but_prefix n (snd (m s1)) (snd (m s2)).

(** The status bar of [s'] is the one of [s]. *)
Definition same_status_bar (s s' : App) : Prop :=
  status_label s' = status_label s /\ about_button s' = about_button s.


(** ** Frame lemmas: what the tab methods leave untouched *)

Lemma fresh_idem (s : App) : fresh (fresh s) = fresh s.
Proof. reflexivity. Qed.

Lemma keeps_ret {A} (a : A) : keeps_self (ret a).
Proof. intro s; reflexivity. Qed.

Lemma keeps_lift {A} (r : result A) : keeps_self (lift r).
Proof. intro s; reflexivity. Qed.

Lemma keeps_bind {A B} (m : M A) (k : A -> M B) :
  keeps_self m -> (forall a, keeps_self (k a)) -> keeps_self (bind m k).
Proof.
  intros Hm Hk s. unfold bind.
  specialize (Hm s). destruct (m s) as [[a | e] s']; simpl in *.
  - rewrite Hk. exact Hm.
  - exact Hm.
Qed.

Lemma keeps_get_attr {A} (name : string) (f : App -> option A) :
  keeps_self (get_attr name f).
Proof. intro s; unfold get_attr; destruct (f s); reflexivity. Qed.

Lemma keeps_set_notebook (n : list Tab) : keeps_self (modify (set_notebook n)).
Proof. intro s; reflexivity. Qed.

Lemma keeps_for_fold {A S} (body : S -> A -> M S) (l : list A) :
  (forall acc x, keeps_self (body acc x)) ->
  forall acc, keeps_self (for_fold l acc body).
Proof.
  intro Hbody. induction l as [| x l IH]; intro acc; simpl.
  - apply keeps_ret.
  - apply keeps_bind; [apply Hbody | exact IH].
Qed.

Lemma keeps_for_each {A} (body : A -> M unit) (l : list A) :
  (forall x, keeps_self (body x)) -> keeps_self (for_each l body).
Proof. intro H. unfold for_each. apply keeps_for_fold. intros _ x. apply H. Qed.

(** One step of a frame proof: split a [bind], enter a loop body or
    a pattern, or close a primitive. *)
Ltac keeps_step :=
  match goal with
  | |- keeps_self (bind _ _) => apply keeps_bind; [| intro]
  | |- keeps_self (ret _) => apply keeps_ret
  | |- keeps_self (lift _) => apply keeps_lift
  | |- keeps_self (get_attr _ _) => apply keeps_get_attr
  | |- keeps_self (modify (set_notebook _)) => apply keeps_set_notebook
  | |- keeps_self (for_each _ _) => apply keeps_for_each; intro
  | |- keeps_self (for_fold _ _ _) => apply keeps_for_fold; intros
  | |- keeps_self (if ?b then _ else _) => destruct b
  | |- keeps_self (match ?x with _ => _ end) => destruct x
  | |- keeps_self ((match ?x with _ => _ end) _) => destruct x
  | |- keeps_self (let _ := _ in _) => cbv zeta
  end.

Ltac keeps_auto := repeat (cbv beta; keeps_step).

Lemma keeps_kichwa_data_getitem (key : string) : keeps_self (kichwa_data_getitem key).
Proof. unfold kichwa_data_getitem. keeps_auto. Qed.

Lemma keeps_colors_getitem (name : string) : keeps_self (colors_getitem name).
Proof. unfold colors_getitem. keeps_auto. Qed.

Lemma keeps_pack (w : Widget) : keeps_self (pack w).
Proof. unfold pack. keeps_auto. Qed.

Lemma keeps_open_tab (text : string) : keeps_self (open_tab text).
Proof.
  unfold open_tab, notebook_add, create_canvas.
  keeps_auto; apply keeps_colors_getitem.
Qed.

Lemma keeps_subtitle (text : string) : keeps_self (subtitle text).
Proof. apply keeps_pack. Qed.

Lemma keeps_scrolled_text (h : nat) (content : result Value) :
  keeps_self (scrolled_text h content).
Proof. unfold scrolled_text. keeps_auto; apply keeps_colors_getitem. Qed.

Lemma keeps_two_columns (l : list Value) : keeps_self (two_columns l).
Proof. unfold two_columns. keeps_auto. Qed.

Lemma keeps_titled_entry (token title : string) (desc : Value) :
  keeps_self (titled_entry token title desc).
Proof.
  unfold titled_entry. keeps_auto;
    first [apply keeps_colors_getitem | apply keeps_pack].
Qed.

Ltac keeps_tab :=
  repeat (cbv beta;
          first [ apply keeps_open_tab | apply keeps_subtitle
                | apply keeps_scrolled_text | apply keeps_two_columns
                | apply keeps_titled_entry | apply keeps_pack
                | apply keeps_kichwa_data_getitem | apply keeps_colors_getitem
                | keeps_step ]).

(** Every tab method of the second definition reads the content
    store and the colours and writes the notebook only. *)
Lemma render_keeps_self (t : Topic) : keeps_self (render t).
Proof.
  destruct t; cbn [render];
    [ unfold SecondDefinition.create_overview_tab
    | unfold SecondDefinition.create_regions_tab
    | unfold SecondDefinition.create_language_tab
    | unfold SecondDefinition.create_traditions_tab
    | unfold SecondDefinition.create_worldview_tab
    | unfold SecondDefinition.create_design_tab ];
    keeps_tab.
Qed.

(** Rendering again on a fresh surface of the object a first
    rendering left gives that same outcome and that same surface. *)
Lemma render_rerun (t : Topic) (s : App) :
  render t (fresh (snd (render t (fresh s)))) = render t (fresh s).
Proof. rewrite render_keeps_self. rewrite fresh_idem. reflexivity. Qed.

(** ** Facts about dictionaries and [split] *)

Section Dictionaries.

Context {A : Type}.

Lemma assoc_In_keys (d : list (string * A)) (k : string) (v : A) :
  assoc k d = Some v -> In k (keys d).
Proof.
  induction d as [| [k' v'] d IH]; simpl; [discriminate |].
  destruct (String.eqb_spec k k') as [-> | _]; auto.
Qed.

Lemma assoc_not_In_keys (d : list (string * A)) (k : string) :
  ~ In k (keys d) -> assoc k d = None.
Proof.
  intro H. destruct (assoc k d) as [v |] eqn:E; [| reflexivity].
  exfalso. apply H. exact (assoc_In_keys d k v E).
Qed.

End Dictionaries.

(** With at least two pieces, both subscripts of the colour parse are
    in range. *)
Lemma parse_color_in_range (color : string) :
  2 <= length (split " "%char color) ->
  exists a b, SecondDefinition.parse_color color = Ok (a, b).
Proof.
  unfold SecondDefinition.parse_color, index.
  destruct (split " "%char color) as [| a [| b rest]]; simpl; intro H; try lia.
  eexists; eexists; reflexivity.
Qed.

(** A lookup of a colour token, found or not, leaves [self] as it is. *)
Lemma colors_getitem_state (name : string) (s : App) :
  snd (colors_getitem name s) = s.
Proof.
  unfold colors_getitem, bind, get_attr, lift.
  destruct (colors s); reflexivity.
Qed.

Lemma kichwa_data_getitem_state (key : string) (s : App) :
  snd (kichwa_data_getitem key s) = s.
Proof.
  unfold kichwa_data_getitem, bind, get_attr, lift.
  destruct (kichwa_data s); reflexivity.
Qed.

(** ** The claims *)

(** C1, as the program has it: [main] constructs the application
    without an exception and leaves exactly six tabs in the notebook,
    added by the six [create_*_tab] calls of the second definition's
    [create_widgets] in the order overview, regions, language,
    traditions, worldview, design. *)
Theorem startup_adds_six_tabs (today : string) :
  fst (main today) = Ok tt /\
  tab_texts (started today) =
    ["Información General"; "Regiones"; "Idioma"; "Tradiciones";
     "Cosmovisión"; "Diseño Cultural"] /\
  length (tab_texts (started today)) = 6 /\
  tab_calls (started today) =
    [(Second, "create_overview_tab"); (Second, "create_regions_tab");
     (Second, "create_language_tab"); (Second, "create_traditions_tab");
     (Second, "create_worldview_tab"); (Second, "create_design_tab")].
Proof. repeat split; vm_compute; reflexivity. Qed.

(** C1, as stated, fails: the notebook does not hold seven tabs
    after start-up. *)
Lemma startup_does_not_add_seven_tabs :
  fst (main "03-11-2026") = Ok tt /\
  length (tab_texts (started "03-11-2026")) <> 7.
Proof. split; [vm_compute; reflexivity | vm_compute; discriminate]. Qed.

(** C2, as the program has it: the content store has six topic keys,
    the ones the six tab methods read, and each of them is found and
    has at least one section. *)
Theorem every_topic_has_sections :
  store_keys load_kichwa_data = map topic_key all_topics /\
  length (store_keys load_kichwa_data) = 6 /\
  Forall (fun t => exists topic,
              getitem load_kichwa_data (topic_key t) = Ok topic /\
              sections topic <> [])
         all_topics.
Proof.
  split; [reflexivity |]. split; [reflexivity |].
  repeat constructor; (eexists; split; [vm_compute; reflexivity | discriminate]).
Qed.

(** C2, as stated, fails: no seven distinct keys are all found in
    the content store. *)
Lemma no_seven_topic_keys :
  ~ (exists ks : list string,
       NoDup ks /\ length ks = 7 /\
       Forall (fun k => exists topic,
                   getitem load_kichwa_data k = Ok topic /\
                   sections topic <> [])
              ks).
Proof.
  intros [ks [Hnd [Hlen Hall]]].
  assert (Hincl : incl ks (store_keys load_kichwa_data)).
  { intros k Hk. rewrite Forall_forall in Hall.
    destruct (Hall k Hk) as [topic [Hget _]].
    unfold getitem, load_kichwa_data, dict_getitem in Hget.
    match type of Hget with
    | match assoc k ?d with _ => _ end = _ =>
        destruct (assoc k d) as [v |] eqn:E; [| discriminate Hget];
        exact (assoc_In_keys d k v E)
    end. }
  pose proof (NoDup_incl_length Hnd Hincl) as Hle.
  rewrite Hlen in Hle. vm_compute in Hle. lia.
Qed.

(** C3, as the program has it: the colours mapping has no default.
    After a start-up, which itself does not fail, looking up a name
    that is not registered raises [KeyError] on that name and leaves
    the object as it is. *)
Theorem unregistered_token_raises
  (today name : string) (c : list (string * string)) :
  colors (started today) = Some c ->
  assoc name c = None ->
  fst (main today) = Ok tt /\
  colors_getitem name (started today) = (Err (KeyError name), started today).
Proof.
  intros Hc Hname. split; [vm_compute; reflexivity |].
  unfold colors_getitem, bind, get_attr, lift, dict_getitem.
  rewrite Hc, Hname. reflexivity.
Qed.

Lemma unregistered_token_raises_witness :
  colors (started "03-11-2026")
  = Some [("primary", "#8B2323"); ("secondary", "#CD853F");
          ("accent", "#FFD700"); ("background", "#F5F5DC");
          ("text", "#343e40"); ("highlight", "#228B22")] /\
  assoc "border"
        [("primary", "#8B2323"); ("secondary", "#CD853F");
         ("accent", "#FFD700"); ("background", "#F5F5DC");
         ("text", "#343e40"); ("highlight", "#228B22")] = None /\
  fst (main "03-11-2026") = Ok tt /\
  colors_getitem "border" (started "03-11-2026")
  = (Err (KeyError "border"), started "03-11-2026").
Proof.
  split; [vm_compute; reflexivity |].
  split; [vm_compute; reflexivity |].
  apply (unregistered_token_raises "03-11-2026" "border"
           [("primary", "#8B2323"); ("secondary", "#CD853F");
            ("accent", "#FFD700"); ("background", "#F5F5DC");
            ("text", "#343e40"); ("highlight", "#228B22")]).
  - vm_compute. reflexivity.
  - vm_compute. reflexivity.
Defined.

(** C3, as stated, fails: the name ["border"] is not registered by
    [configure_styles], and looking it up yields no value at all. *)
Lemma unregistered_token_has_no_default :
  fst (main "03-11-2026") = Ok tt /\
  option_map (assoc "border") (colors (started "03-11-2026")) = Some None /\
  ~ (exists v, fst (colors_getitem "border" (started "03-11-2026")) = Ok v).
Proof.
  split; [vm_compute; reflexivity |].
  split; [vm_compute; reflexivity |].
  intros [v Hv]. vm_compute in Hv. discriminate Hv.
Qed.

(** C4: for a key that the content store does not hold, the topic
    lookup raises [KeyError] on that key (the specification's
    NotFoundError) and leaves the object, hence the store, as it was:
    every lookup made afterwards gives what it gave before. *)
Theorem missing_topic_raises
  (s : App) (d : list (string * Value)) (key : string) :
  kichwa_data s = Some (VDict d) ->
  ~ In key (keys d) ->
  kichwa_data_getitem key s = (Err (KeyError key), s) /\
  kichwa_data (snd (kichwa_data_getitem key s)) = Some (VDict d) /\
  forall k, kichwa_data_getitem k (snd (kichwa_data_getitem key s))
            = kichwa_data_getitem k s.
Proof.
  intros Hd Hkey.
  rewrite kichwa_data_getitem_state. repeat split; [| exact Hd].
  unfold kichwa_data_getitem, bind, get_attr, lift, getitem, dict_getitem.
  rewrite Hd. rewrite (assoc_not_In_keys d key Hkey). reflexivity.
Qed.

Lemma missing_topic_raises_witness :
  kichwa_data (started "03-11-2026") = Some (VDict (sections load_kichwa_data)) /\
  ~ In "nonexistent" (keys (sections load_kichwa_data)) /\
  kichwa_data_getitem "nonexistent" (started "03-11-2026")
  = (Err (KeyError "nonexistent"), started "03-11-2026").
Proof.
  assert (Hd : kichwa_data (started "03-11-2026")
               = Some (VDict (sections load_kichwa_data)))
    by (vm_compute; reflexivity).
  assert (Hk : ~ In "nonexistent" (keys (sections load_kichwa_data))).
  { vm_compute. intro H.
    repeat (destruct H as [H | H]; [discriminate H |]). exact H. }
  split; [exact Hd |]. split; [exact Hk |].
  exact (proj1 (missing_topic_raises (started "03-11-2026")
                  (sections load_kichwa_data) "nonexistent" Hd Hk)).
Defined.

(** C5: the vocabulary list of the store has exactly ten rows of
    exactly three strings each, and the grid that
    [create_language_tab] builds from it has three header cells in row
    0 and three cells, in columns 0, 1 and 2, in each of the rows 1
    to 10, and nothing else. *)
Theorem vocabulary_table_shape (today : string) :
  exists lang rows tab table,
    getitem load_kichwa_data "idioma" = Ok lang /\
    rbind (getitem lang "vocabulario_basico") iter = Ok rows /\
    length rows = 10 /\
    Forall (fun row => exists a b c, row = VList [VStr a; VStr b; VStr c]) rows /\
    tab_named "Idioma" (started today) = Some tab /\
    block_after "Vocabulario Básico" (tab_body tab) = Some table /\
    grid_row 0 table = [(0, "Español"); (1, "Kichwa"); (2, "Pronunciación")] /\
    Forall (fun r => map fst (grid_row r table) = [0; 1; 2]) (seq 1 10) /\
    grid_cell_count table = 3 + 3 * length rows.
Proof.
  do 4 eexists.
  split; [vm_compute; reflexivity |].
  split; [vm_compute; reflexivity |].
  split; [reflexivity |].
  split; [repeat constructor; do 3 eexists; reflexivity |].
  split; [vm_compute; reflexivity |].
  split; [vm_compute; reflexivity |].
  split; [vm_compute; reflexivity |].
  split; [repeat constructor |].
  vm_compute; reflexivity.
Qed.

(** C6: the language page built at start-up holds, under the
    vocabulary heading, a grid whose header row reads Español,
    Kichwa, Pronunciación and whose first data row reads Hola,
    Imanalla, Imanalla (imanalya); that row is the first entry of the
    vocabulary list of the "idioma" topic of the store. *)
Theorem language_table_has_hola (today : string) :
  exists lang rows tab table,
    getitem load_kichwa_data "idioma" = Ok lang /\
    rbind (getitem lang "vocabulario_basico") iter = Ok rows /\
    In (VList [VStr "Hola"; VStr "Imanalla"; VStr "Imanalla (imanalya)"]) rows /\
    tab_named "Idioma" (started today) = Some tab /\
    block_after "Vocabulario Básico" (tab_body tab) = Some table /\
    grid_row 0 table = [(0, "Español"); (1, "Kichwa"); (2, "Pronunciación")] /\
    grid_row 1 table = [(0, "Hola"); (1, "Imanalla"); (2, "Imanalla (imanalya)")].
Proof.
  do 4 eexists.
  split; [vm_compute; reflexivity |].
  split; [vm_compute; reflexivity |].
  split; [left; reflexivity |].
  split; [vm_compute; reflexivity |].
  split; [vm_compute; reflexivity |].
  split; vm_compute; reflexivity.
Qed.

(** C7: looking a token up any number of times in a row gives the
    same result every time, whatever the name and the state of the
    object. *)
Theorem resolve_idempotent (s : App) (name : string) (n : nat) :
  resolve_times n name s = repeat (fst (colors_getitem name s)) n.
Proof.
  induction n as [| n IH]; cbn [resolve_times repeat]; [reflexivity |].
  destruct (colors_getitem name s) as [r s'] eqn:E.
  assert (Hs : s' = s)
    by (pose proof (colors_getitem_state name s) as H; rewrite E in H; exact H).
  subst s'. rewrite IH. reflexivity.
Qed.

(** C8: for each of the six topics, rendering on a fresh surface of
    the started application succeeds and leaves one page; rendering
    again, on a fresh surface of the object the first run left,
    succeeds with the same page: same title, same blocks in the same
    order with the same texts.  The content store is the same after
    both runs. *)
Theorem render_twice_identical (today : string) (t : Topic) :
  fst (render t (fresh (started today))) = Ok tt /\
  fst (render t (fresh (snd (render t (fresh (started today)))))) = Ok tt /\
  notebook (snd (render t (fresh (snd (render t (fresh (started today)))))))
  = notebook (snd (render t (fresh (started today)))) /\
  kichwa_data (snd (render t (fresh (started today)))) = kichwa_data (started today) /\
  exists tab, notebook (snd (render t (fresh (started today)))) = Some [tab] /\
              tab_body tab <> [].
Proof.
  rewrite render_rerun.
  assert (Hrun : fst (render t (fresh (started today))) = Ok tt)
    by (destruct t; vm_compute; reflexivity).
  split; [exact Hrun |]. split; [exact Hrun |]. split; [reflexivity |].
  split.
  - pose proof (render_keeps_self t (fresh (started today))) as Hk.
    rewrite fresh_idem in Hk.
    change (kichwa_data (fresh (snd (render t (fresh (started today)))))
            = kichwa_data (fresh (started today))).
    rewrite Hk. reflexivity.
  - destruct t; eexists; (split; [vm_compute; reflexivity | discriminate]).
Qed.

(** C9: every key of [significado_colores] splits on a space into
    at least two pieces, so the parse of the design tab stays in range
    on each of them, and it yields the Spanish and the Kichwa name of
    the colour. *)
Theorem color_keys_parse :
  exists design colores,
    getitem load_kichwa_data "diseno_cultural" = Ok design /\
    rbind (getitem design "significado_colores") items = Ok colores /\
    Forall (fun k => 2 <= length (split " "%char k)) (keys colores) /\
    Forall (fun k => exists a b, SecondDefinition.parse_color k = Ok (a, b))
           (keys colores) /\
    map SecondDefinition.parse_color (keys colores) =
      [Ok ("Rojo", "Puka"); Ok ("Dorado/Amarillo", "Killu");
       Ok ("Azul", "Ankas"); Ok ("Verde", "Waylla");
       Ok ("Negro", "Yana"); Ok ("Blanco", "Yurak")].
Proof.
  do 2 eexists.
  split; [vm_compute; reflexivity |].
  split; [vm_compute; reflexivity |].
  assert (Hsplit : Forall (fun k => 2 <= length (split " "%char k))
                          ["Rojo (Puka)"; "Dorado/Amarillo (Killu)"; "Azul (Ankas)";
                           "Verde (Waylla)"; "Negro (Yana)"; "Blanco (Yurak)"])
    by (repeat constructor).
  split; [exact Hsplit |].
  split.
  - eapply Forall_impl; [| exact Hsplit].
    intros k Hk. exact (parse_color_in_range k Hk).
  - vm_compute. reflexivity.
Qed.

(** C10: the module binds [KichwaInfoSystem] twice and the name
    denotes the second class when [main] runs.  Constructing the
    application succeeds; every method entered belongs to the second
    definition, so the first definition's [configure_styles] is not
    among them.  That method, on any object, stops with [KeyError] on
    ['#8B2323'], a name its own colours do not register, as they do
    not register ['red']. *)
Theorem second_definition_runs (today : string) :
  map snd (filter (fun b => String.eqb (fst b) "KichwaInfoSystem") module_statements)
  = [GClass First; GClass Second] /\
  assoc "KichwaInfoSystem" module_globals = Some (GClass Second) /\
  fst (main today) = Ok tt /\
  is_KeyError (fst (main today)) = false /\
  Forall (fun e => fst e = Second) (trace (started today)) /\
  ~ In (First, "configure_styles") (trace (started today)) /\
  (forall s, fst (FirstDefinition.configure_styles s) = Err (KeyError "#8B2323")) /\
  (forall s, option_map (fun c => (assoc "#8B2323" c, assoc "red" c))
                        (colors (snd (FirstDefinition.configure_styles s)))
             = Some (None, None)).
Proof.
  split; [reflexivity |].
  split; [reflexivity |].
  split; [vm_compute; reflexivity |].
  split; [vm_compute; reflexivity |].
  split; [vm_compute; repeat constructor |].
  split.
  - vm_compute. intro H.
    repeat (destruct H as [H | H]; [discriminate H |]). exact H.
  - split; intro s; reflexivity.
Qed.

(** ** Further properties: strings *)

Lemma mem_ascii_app (c : ascii) (a b : string) :
  mem_ascii c (a ++ b) = mem_ascii c a || mem_ascii c b.
Proof.
  induction a as [| x a IH]; simpl; [reflexivity |].
  rewrite IH. apply orb_assoc.
Qed.

Lemma split_length (sep : ascii) (s : string) :
  length (split sep s) = S (count_char sep s).
Proof.
  induction s as [| c r IH]; simpl; [reflexivity |].
  destruct (Ascii.eqb c sep); simpl; [rewrite IH; reflexivity |].
  destruct (split sep r) as [| h t]; simpl in *; [discriminate IH | exact IH].
Qed.

Lemma count_char_mem (sep : ascii) (s : string) :
  (0 <? count_char sep s)%nat = mem_ascii sep s.
Proof.
  induction s as [| c r IH]; simpl; [reflexivity |].
  rewrite (Ascii.eqb_sym sep c).
  destruct (Ascii.eqb c sep); simpl; [reflexivity | exact IH].
Qed.

Lemma split_no_sep (sep : ascii) (s : string) :
  mem_ascii sep s = false -> split sep s = [s].
Proof.
  induction s as [| c r IH]; simpl; [reflexivity |].
  rewrite (Ascii.eqb_sym sep c).
  destruct (Ascii.eqb c sep); simpl; [discriminate |].
  intro H. rewrite (IH H). reflexivity.
Qed.

Lemma split_app (sep : ascii) (a r : string) :
  mem_ascii sep a = false ->
  split sep (a ++ String sep r) = a :: split sep r.
Proof.
  induction a as [| c a IH]; simpl.
  - intros _. rewrite Ascii.eqb_refl. reflexivity.
  - rewrite (Ascii.eqb_sym sep c).
    destruct (Ascii.eqb c sep); simpl; [discriminate |].
    intro H. rewrite (IH H). reflexivity.
Qed.

Lemma split_pieces_no_sep (sep : ascii) (s : string) :
  Forall (fun p => mem_ascii sep p = false) (split sep s).
Proof.
  induction s as [| c r IH]; simpl.
  - repeat constructor.
  - destruct (Ascii.eqb c sep) eqn:E.
    + constructor; [reflexivity | exact IH].
    + destruct (split sep r) as [| h t].
      * repeat constructor. simpl. rewrite (Ascii.eqb_sym sep c), E. reflexivity.
      * inversion IH as [| ? ? Hh Ht]; subst.
        constructor; [| exact Ht].
        simpl. rewrite (Ascii.eqb_sym sep c), E. exact Hh.
Qed.

(** Joining the pieces of a split with the separator gives the
    string back, and there is one piece more than there are
    separators. *)
Lemma split_join_roundtrip (sep : ascii) (s : string) :
  join sep (split sep s) = s /\
  length (split sep s) = S (count_char sep s).
Proof.
  split; [| apply split_length].
  induction s as [| c r IH]; simpl; [reflexivity |].
  destruct (Ascii.eqb_spec c sep) as [-> | _].
  - pose proof (split_length sep r) as Hl.
    destruct (split sep r) as [| h t]; [discriminate Hl |].
    cbn [join]. cbn [join] in IH. simpl. rewrite IH. reflexivity.
  - pose proof (split_length sep r) as Hl.
    destruct (split sep r) as [| h t]; [discriminate Hl |].
    destruct t as [| h' t']; cbn [join] in *; simpl; rewrite IH; reflexivity.
Qed.

Lemma lstrip_length (chars s : string) :
  String.length (lstrip chars s) <= String.length s.
Proof.
  induction s as [| c r IH]; simpl; [lia |].
  destruct (mem_ascii c chars); simpl; lia.
Qed.

Lemma lstrip_fixed_head (chars : string) (c : ascii) (r : string) :
  lstrip chars (String c r) = String c r -> mem_ascii c chars = false.
Proof.
  simpl. destruct (mem_ascii c chars); [| reflexivity].
  intro H. pose proof (lstrip_length chars r) as Hl.
  rewrite H in Hl. simpl in Hl. lia.
Qed.

Lemma lstrip_head (chars s : string) :
  lstrip chars s = EmptyString \/
  exists c r, lstrip chars s = String c r /\ mem_ascii c chars = false.
Proof.
  induction s as [| c r IH]; simpl; [left; reflexivity |].
  destruct (mem_ascii c chars) eqn:E; [exact IH |].
  right. exists c, r. split; [reflexivity | exact E].
Qed.

Lemma rstrip_snoc (chars s : string) (c : ascii) :
  mem_ascii c chars = true ->
  rstrip chars (s ++ String c EmptyString) = rstrip chars s.
Proof.
  intro Hc. induction s as [| x s IH]; simpl.
  - rewrite Hc. reflexivity.
  - rewrite IH. reflexivity.
Qed.

Lemma rstrip_keeps_head (chars : string) (c : ascii) (r : string) :
  mem_ascii c chars = false ->
  exists r', rstrip chars (String c r) = String c r'.
Proof.
  intro Hc. simpl. destruct (rstrip chars r) as [| x r'].
  - rewrite Hc. eexists; reflexivity.
  - eexists; reflexivity.
Qed.

Lemma rstrip_idem (chars s : string) :
  rstrip chars (rstrip chars s) = rstrip chars s.
Proof.
  induction s as [| c r IH]; simpl; [reflexivity |].
  destruct (rstrip chars r) as [| x r'] eqn:E.
  - destruct (mem_ascii c chars) eqn:Hc; simpl; [reflexivity |].
    rewrite Hc. reflexivity.
  - simpl in IH. simpl. rewrite IH. reflexivity.
Qed.

Lemma mem_lstrip (c : ascii) (chars s : string) :
  mem_ascii c s = false -> mem_ascii c (lstrip chars s) = false.
Proof.
  induction s as [| x r IH]; simpl; [reflexivity |].
  intro H. apply orb_false_iff in H. destruct H as [Hx Hr].
  destruct (mem_ascii x chars); [exact (IH Hr) |].
  simpl. rewrite Hx, Hr. reflexivity.
Qed.

Lemma mem_rstrip (c : ascii) (chars s : string) :
  mem_ascii c s = false -> mem_ascii c (rstrip chars s) = false.
Proof.
  induction s as [| x r IH]; simpl; [reflexivity |].
  intro H. apply orb_false_iff in H. destruct H as [Hx Hr].
  specialize (IH Hr).
  destruct (rstrip chars r) as [| y r'].
  - destruct (mem_ascii x chars); simpl; [reflexivity |].
    rewrite Hx. reflexivity.
  - simpl. simpl in IH. rewrite Hx. exact IH.
Qed.

(** What [strip] returns has nothing left to strip on either side. *)
Lemma strip_stripped (chars s : string) :
  lstrip chars (strip chars s) = strip chars s /\
  rstrip chars (strip chars s) = strip chars s.
Proof.
  unfold strip. split; [| apply rstrip_idem].
  destruct (lstrip_head chars s) as [-> | [c [r [-> Hc]]]]; [reflexivity |].
  destruct (rstrip_keeps_head chars c r Hc) as [r' ->].
  simpl. rewrite Hc. reflexivity.
Qed.

(** ** Further properties: the colour labels of the design tab *)

(** The parse of a well-formed label, for the loops below. *)
Lemma parse_color_label (name kichwa : string) :
  mem_ascii " " name = false ->
  mem_ascii " " kichwa = false ->
  lstrip "()" kichwa = kichwa ->
  rstrip "()" kichwa = kichwa ->
  SecondDefinition.parse_color (name ++ " (" ++ kichwa ++ ")") = Ok (name, kichwa).
Proof.
  intros Hn Hk Hl Hr.
  unfold SecondDefinition.parse_color.
  change (name ++ " (" ++ kichwa ++ ")")%string
    with (name ++ String " " (String "(" (kichwa ++ ")")))%string.
  rewrite (split_app " " name _ Hn).
  rewrite split_no_sep
    by (simpl; rewrite mem_ascii_app, Hk; reflexivity).
  simpl. f_equal. f_equal. unfold strip. simpl.
  destruct kichwa as [| c r]; [reflexivity |].
  pose proof (lstrip_fixed_head "()" c r Hl) as Hc.
  change (String c r ++ ")")%string with (String c (r ++ ")")).
  simpl in Hc. simpl. rewrite Hc.
  change (String c (r ++ ")")) with (String c r ++ String ")" EmptyString)%string.
  rewrite rstrip_snoc by reflexivity. exact Hr.
Qed.

(** X14: a label made of a Spanish name, a space and a Kichwa name in
    parentheses is parsed back into the two names, provided neither
    holds a space and the Kichwa name neither starts nor ends with a
    parenthesis. *)
Theorem parse_color_roundtrip (name kichwa : string) :
  mem_ascii " " name = false ->
  mem_ascii " " kichwa = false ->
  lstrip "()" kichwa = kichwa ->
  rstrip "()" kichwa = kichwa ->
  SecondDefinition.parse_color (name ++ " (" ++ kichwa ++ ")") = Ok (name, kichwa).
Proof.
  intros Hn Hk Hl Hr.
  unfold SecondDefinition.parse_color.
  change (name ++ " (" ++ kichwa ++ ")")%string
    with (name ++ String " " (String "(" (kichwa ++ ")")))%string.
  rewrite (split_app " " name _ Hn).
  rewrite split_no_sep
    by (simpl; rewrite mem_ascii_app, Hk; reflexivity).
  simpl. f_equal. f_equal. unfold strip. simpl.
  destruct kichwa as [| c r]; [reflexivity |].
  pose proof (lstrip_fixed_head "()" c r Hl) as Hc.
  change (String c r ++ ")")%string with (String c (r ++ ")")).
  simpl in Hc. simpl. rewrite Hc.
  change (String c (r ++ ")")) with (String c r ++ String ")" EmptyString)%string.
  rewrite rstrip_snoc by reflexivity. exact Hr.
Qed.

Lemma parse_color_roundtrip_witness :
  mem_ascii " " "Morado" = false /\
  mem_ascii " " "Maywa" = false /\
  lstrip "()" "Maywa" = "Maywa" /\
  rstrip "()" "Maywa" = "Maywa" /\
  SecondDefinition.parse_color ("Morado" ++ " (" ++ "Maywa" ++ ")")
  = Ok ("Morado", "Maywa").
Proof.
  repeat (split; [reflexivity |]).
  apply (parse_color_roundtrip "Morado" "Maywa"); reflexivity.
Defined.


(** X15: the parse of a colour label succeeds exactly when the label
    holds a space; without one the second subscript is out of range
    and the design tab stops with [IndexError]. *)
Theorem parse_color_needs_space (color : string) :
  match SecondDefinition.parse_color color with
  | Ok _ => mem_ascii " " color = true
  | Err e => e = IndexError /\ mem_ascii " " color = false
  end.
Proof.
  pose proof (split_length " " color) as Hl.
  pose proof (count_char_mem " " color) as Hm.
  unfold SecondDefinition.parse_color, index.
  destruct (split " " color) as [| a [| b t]]; simpl in *.
  - discriminate Hl.
  - assert (count_char " " color = 0) as E by lia.
    rewrite E in Hm. simpl in Hm. rewrite <- Hm. split; reflexivity.
  - assert (exists n, count_char " " color = S n) as [n E]
      by (exists (length t); lia).
    rewrite E in Hm. simpl in Hm. rewrite <- Hm. reflexivity.
Qed.

(** X16: whatever the parse returns, the Spanish name holds no space
    and the Kichwa name holds no space and neither starts nor ends
    with a parenthesis. *)
Theorem parse_color_result_clean (color name kichwa : string) :
  SecondDefinition.parse_color color = Ok (name, kichwa) ->
  mem_ascii " " name = false /\
  mem_ascii " " kichwa = false /\
  lstrip "()" kichwa = kichwa /\
  rstrip "()" kichwa = kichwa.
Proof.
  unfold SecondDefinition.parse_color, index.
  pose proof (split_pieces_no_sep " " color) as Hall.
  destruct (split " " color) as [| a [| b t]]; simpl; try discriminate.
  intro H. injection H as <- <-.
  inversion Hall as [| ? ? Ha Hrest]; subst.
  inversion Hrest as [| ? ? Hb _]; subst.
  split; [exact Ha |]. split.
  - unfold strip. apply mem_rstrip, mem_lstrip. exact Hb.
  - apply strip_stripped.
Qed.

Lemma parse_color_result_clean_witness :
  SecondDefinition.parse_color "Rojo (Puka)" = Ok ("Rojo", "Puka") /\
  mem_ascii " " "Rojo" = false /\
  mem_ascii " " "Puka" = false /\
  lstrip "()" "Puka" = "Puka" /\
  rstrip "()" "Puka" = "Puka".
Proof.
  split; [reflexivity |].
  apply (parse_color_result_clean "Rojo (Puka)" "Rojo" "Puka"). reflexivity.
Defined.

(** X17: only the first two words of a label are used: when the
    Spanish part has two words, the second word is taken for the
    Kichwa name and what follows is ignored. *)
Theorem parse_color_takes_second_word (first second rest : string) :
  mem_ascii " " first = false ->
  mem_ascii " " second = false ->
  SecondDefinition.parse_color (first ++ " " ++ second ++ " " ++ rest)
  = Ok (first, strip "()" second).
Proof.
  intros Hf Hs.
  unfold SecondDefinition.parse_color.
  change (first ++ " " ++ second ++ " " ++ rest)%string
    with (first ++ String " " (second ++ String " " rest))%string.
  rewrite (split_app " " first _ Hf), (split_app " " second _ Hs).
  reflexivity.
Qed.

Lemma parse_color_takes_second_word_witness :
  mem_ascii " " "Azul" = false /\
  mem_ascii " " "claro" = false /\
  SecondDefinition.parse_color ("Azul" ++ " " ++ "claro" ++ " " ++ "(Ankas)")
  = Ok ("Azul", "claro").
Proof.
  repeat (split; [reflexivity |]).
  apply (parse_color_takes_second_word "Azul" "claro" "(Ankas)"); reflexivity.
Defined.

(** ** Further properties: the tab methods on any object *)

Lemma bind_ok {A B} (m : M A) (k : A -> M B) (s s' : App) (a : A) :
  m s = (Ok a, s') -> bind m k s = k a s'.
Proof. intro H. unfold bind. rewrite H. reflexivity. Qed.

Lemma bind_err {A B} (m : M A) (k : A -> M B) (s s' : App) (e : PyErr) :
  m s = (Err e, s') -> bind m k s = (Err e, s').
Proof. intro H. unfold bind. rewrite H. reflexivity. Qed.

Lemma update_last_app (f : Tab -> Tab) (n : list Tab) (t : Tab) :
  update_last f (n ++ [t]) = (n ++ [f t])%list.
Proof.
  unfold update_last. rewrite rev_app_distr. simpl.
  rewrite rev_involutive. reflexivity.
Qed.

(** Relations kept by every method built from the primitives that
    read. *)
Section Preserves.

Variable R : App -> App -> Prop.
Hypothesis R_refl : forall s, R s s.
Hypothesis R_trans : forall s1 s2 s3, R s1 s2 -> R s2 s3 -> R s1 s3.

Lemma preserves_ret {A} (a : A) : preserves R (ret a).
Proof. intro s. apply R_refl. Qed.

Lemma preserves_lift {A} (r : result A) : preserves R (lift r).
Proof. intro s. apply R_refl. Qed.

Lemma preserves_raise {A} (e : PyErr) : preserves R (@raise A e).
Proof. intro s. apply R_refl. Qed.

Lemma preserves_get_attr {A} (name : string) (f : App -> option A) :
  preserves R (get_attr name f).
Proof. intro s. unfold get_attr. destruct (f s); apply R_refl. Qed.

Lemma preserves_bind {A B} (m : M A) (k : A -> M B) :
  preserves R m -> (forall a, preserves R (k a)) -> preserves R (bind m k).
Proof.
  intros Hm Hk s. unfold bind. specialize (Hm s).
  destruct (m s) as [[a | e] s']; simpl in *; [| exact Hm].
  eapply R_trans; [exact Hm | apply Hk].
Qed.

Lemma preserves_for_fold {A S} (body : S -> A -> M S) (l : list A) :
  (forall acc x, preserves R (body acc x)) ->
  forall acc, preserves R (for_fold l acc body).
Proof.
  intro Hbody. induction l as [| x l IH]; intro acc; simpl.
  - apply preserves_ret.
  - apply preserves_bind; [apply Hbody | exact IH].
Qed.

Lemma preserves_for_each {A} (body : A -> M unit) (l : list A) :
  (forall x, preserves R (body x)) -> preserves R (for_each l body).
Proof. intro H. unfold for_each. apply preserves_for_fold. intros _ x. apply H. Qed.

Lemma preserves_colors_getitem (name : string) : preserves R (colors_getitem name).
Proof.
  unfold colors_getitem. apply preserves_bind;
    [apply preserves_get_attr | intro; apply preserves_lift].
Qed.

Lemma preserves_kichwa_data_getitem (key : string) :
  preserves R (kichwa_data_getitem key).
Proof.
  unfold kichwa_data_getitem. apply preserves_bind;
    [apply preserves_get_attr | intro; apply preserves_lift].
Qed.

End Preserves.

Lemma same_pages_refl (s : App) : same_pages_but_last s s.
Proof. intros n t H. exists t. split; [exact H | reflexivity]. Qed.

Lemma same_pages_trans (s1 s2 s3 : App) :
  same_pages_but_last s1 s2 -> same_pages_but_last s2 s3 ->
  same_pages_but_last s1 s3.
Proof.
  intros H12 H23 n t H. destruct (H12 n t H) as [t2 [H2 E2]].
  destruct (H23 n t2 H2) as [t3 [H3 E3]].
  exists t3. split; [exact H3 | congruence].
Qed.

Lemma same_pages_update (f : Tab -> Tab) (s : App) (tabs : list Tab) :
  (forall t, tab_text (f t) = tab_text t) ->
  notebook s = Some tabs ->
  same_pages_but_last s (set_notebook (update_last f tabs) s).
Proof.
  intros Hf Hs n t H. rewrite Hs in H. injection H as ->.
  exists (f t). split; [| apply Hf].
  simpl. rewrite update_last_app. reflexivity.
Qed.

Lemma pages_pack (w : Widget) : preserves same_pages_but_last (pack w).
Proof.
  intro s. unfold pack, bind, get_attr, modify.
  destruct (notebook s) as [tabs |] eqn:E; simpl; [| apply same_pages_refl].
  apply same_pages_update; [intro; reflexivity | exact E].
Qed.

Lemma pages_create_canvas : preserves same_pages_but_last create_canvas.
Proof.
  unfold create_canvas.
  apply (preserves_bind _ same_pages_trans);
    [apply (preserves_colors_getitem _ same_pages_refl same_pages_trans) |].
  intros bg s. unfold bind, get_attr, modify.
  destruct (notebook s) as [tabs |] eqn:E; simpl; [| apply same_pages_refl].
  apply same_pages_update; [intro; reflexivity | exact E].
Qed.

(** One step of a proof that a method only touches the last page. *)
Ltac pages_step :=
  match goal with
  | |- preserves _ (bind _ _) =>
      apply (preserves_bind _ same_pages_trans); [| intro]
  | |- preserves _ (ret _) => apply (preserves_ret _ same_pages_refl)
  | |- preserves _ (lift _) => apply (preserves_lift _ same_pages_refl)
  | |- preserves _ (colors_getitem _) =>
      apply (preserves_colors_getitem _ same_pages_refl same_pages_trans)
  | |- preserves _ (kichwa_data_getitem _) =>
      apply (preserves_kichwa_data_getitem _ same_pages_refl same_pages_trans)
  | |- preserves _ (pack _) => apply pages_pack
  | |- preserves _ (subtitle _) => apply pages_pack
  | |- preserves _ create_canvas => apply pages_create_canvas
  | |- preserves _ (for_each _ _) =>
      apply (preserves_for_each _ same_pages_refl same_pages_trans); intro
  | |- preserves _ (for_fold _ _ _) =>
      apply (preserves_for_fold _ same_pages_refl same_pages_trans); intros
  | |- preserves _ (scrolled_text _ _) => unfold scrolled_text
  | |- preserves _ (two_columns _) => unfold two_columns
  | |- preserves _ (titled_entry _ _ _) => unfold titled_entry
  | |- preserves _ (if ?b then _ else _) => destruct b
  | |- preserves _ (match ?x with _ => _ end) => destruct x
  | |- preserves _ ((match ?x with _ => _ end) _) => destruct x
  | |- preserves _ (let _ := _ in _) => cbv zeta
  end.

Ltac pages_auto := repeat (cbv beta; pages_step).

(** A tab method is [notebook.add] followed by steps that only
    touch the page just added. *)
Lemma adds_page {A} (title : string) (k : M A) (s : App) (n : list Tab) :
  preserves same_pages_but_last k ->
  notebook s = Some n ->
  exists tab,
    notebook (snd (bind (notebook_add title) (fun _ => k) s)) = Some (n ++ [tab])%list /\
    tab_text tab = title.
Proof.
  intros Hk Hn.
  unfold bind at 1. unfold notebook_add, bind, get_attr, modify. rewrite Hn.
  destruct (Hk (set_notebook (n ++ [mkTab title None []]) s)
               n (mkTab title None []) eq_refl) as [t' [H' E']].
  exists t'. split; [exact H' | exact E'].
Qed.

Lemma bind_assoc {A B C} (m : M A) (k : A -> M B) (h : B -> M C) (s : App) :
  bind (bind m k) h s = bind m (fun a => bind (k a) h) s.
Proof. unfold bind. destruct (m s) as [[a | e] s']; reflexivity. Qed.

(** X1: on an object that has a notebook, each tab method of the
    second definition leaves the pages that were there as they are and
    adds exactly one page after them, carrying the title of its topic,
    whether the method returns or raises. *)
Theorem render_adds_one_page (t : Topic) (s : App) (n : list Tab) :
  notebook s = Some n ->
  exists tab,
    notebook (snd (render t s)) = Some (n ++ [tab])%list /\
    tab_text tab = tab_title t.
Proof.
  intro Hn.
  destruct t; cbn [render tab_title];
    [ unfold SecondDefinition.create_overview_tab
    | unfold SecondDefinition.create_regions_tab
    | unfold SecondDefinition.create_language_tab
    | unfold SecondDefinition.create_traditions_tab
    | unfold SecondDefinition.create_worldview_tab
    | unfold SecondDefinition.create_design_tab ];
    unfold open_tab; rewrite bind_assoc;
    (apply adds_page; [pages_auto | exact Hn]).
Qed.

Lemma render_adds_one_page_witness :
  notebook (fresh (started "03-11-2026")) = Some [] /\
  exists tab,
    notebook (snd (render Design (fresh (started "03-11-2026")))) = Some ([] ++ [tab])%list /\
    tab_text tab = tab_title Design.
Proof.
  split; [reflexivity |].
  apply (render_adds_one_page Design (fresh (started "03-11-2026")) []).
  reflexivity.
Defined.

Lemma notebook_add_ok (text : string) (s : App) (n : list Tab) :
  notebook s = Some n ->
  notebook_add text s = (Ok tt, set_notebook (n ++ [mkTab text None []]) s).
Proof.
  intro H. unfold notebook_add, bind, get_attr, modify. rewrite H. reflexivity.
Qed.

Lemma open_tab_ok (text : string) (s : App) (n : list Tab)
  (c : list (string * string)) (bg : string) :
  notebook s = Some n -> colors s = Some c -> assoc "background" c = Some bg ->
  open_tab text s = (Ok tt, set_notebook (n ++ [mkTab text (Some bg) []]) s).
Proof.
  intros Hn Hc Hbg. unfold open_tab.
  rewrite (bind_ok _ _ _ _ _ (notebook_add_ok text s n Hn)).
  unfold create_canvas, colors_getitem, bind, get_attr, lift, modify, dict_getitem.
  simpl. rewrite Hc, Hbg. simpl. rewrite update_last_app. reflexivity.
Qed.

Lemma pack_ok (w : Widget) (s : App) (n : list Tab) (t : Tab) :
  notebook s = Some (n ++ [t])%list ->
  pack w s = (Ok tt, set_notebook
                       (n ++ [mkTab (tab_text t) (tab_canvas t) (tab_body t ++ [w])]) s).
Proof.
  intro H. unfold pack, bind, get_attr, modify. rewrite H.
  rewrite update_last_app. reflexivity.
Qed.

Lemma kichwa_data_getitem_missing (s : App) (d : list (string * Value)) (key : string) :
  kichwa_data s = Some (VDict d) -> ~ In key (keys d) ->
  kichwa_data_getitem key s = (Err (KeyError key), s).
Proof.
  intros Hd Hk.
  unfold kichwa_data_getitem, bind, get_attr, lift, getitem, dict_getitem.
  rewrite Hd, (assoc_not_In_keys d key Hk). reflexivity.
Qed.

(** X3: a tab method called on an object whose notebook has not been
    created raises [AttributeError] and changes nothing. *)
Theorem render_without_notebook (t : Topic) (s : App) :
  notebook s = None ->
  render t s = (Err (AttributeError "notebook"), s).
Proof.
  intro H.
  assert (E : forall text, open_tab text s = (Err (AttributeError "notebook"), s)).
  { intro text. unfold open_tab. apply bind_err.
    unfold notebook_add. apply bind_err.
    unfold get_attr. rewrite H. reflexivity. }
  destruct t; cbn [render];
    [ unfold SecondDefinition.create_overview_tab
    | unfold SecondDefinition.create_regions_tab
    | unfold SecondDefinition.create_language_tab
    | unfold SecondDefinition.create_traditions_tab
    | unfold SecondDefinition.create_worldview_tab
    | unfold SecondDefinition.create_design_tab ];
    apply bind_err; apply E.
Qed.

Lemma render_without_notebook_witness :
  notebook blank = None /\
  render Language blank = (Err (AttributeError "notebook"), blank).
Proof.
  split; [reflexivity |].
  apply (render_without_notebook Language blank). reflexivity.
Defined.

(** X4: a tab method called before [configure_styles] has assigned
    the colours adds its page to the notebook, titled but with no
    canvas and no content, and then raises [AttributeError]. *)
Theorem render_without_colors (t : Topic) (s : App) (n : list Tab) :
  notebook s = Some n ->
  colors s = None ->
  render t s = (Err (AttributeError "colors"),
                set_notebook (n ++ [mkTab (tab_title t) None []]) s).
Proof.
  intros Hn Hc.
  assert (E : forall text,
             open_tab text s = (Err (AttributeError "colors"),
                                set_notebook (n ++ [mkTab text None []]) s)).
  { intro text. unfold open_tab.
    rewrite (bind_ok _ _ _ _ _ (notebook_add_ok text s n Hn)).
    unfold create_canvas. apply bind_err.
    unfold colors_getitem. apply bind_err.
    unfold get_attr. simpl. rewrite Hc. reflexivity. }
  destruct t; cbn [render tab_title];
    [ unfold SecondDefinition.create_overview_tab
    | unfold SecondDefinition.create_regions_tab
    | unfold SecondDefinition.create_language_tab
    | unfold SecondDefinition.create_traditions_tab
    | unfold SecondDefinition.create_worldview_tab
    | unfold SecondDefinition.create_design_tab ];
    apply bind_err; apply E.
Qed.

Lemma render_without_colors_witness :
  notebook (set_notebook [] blank) = Some [] /\
  colors (set_notebook [] blank) = None /\
  render Regions (set_notebook [] blank)
  = (Err (AttributeError "colors"),
     set_notebook ([] ++ [mkTab (tab_title Regions) None []]) (set_notebook [] blank)).
Proof.
  split; [reflexivity |]. split; [reflexivity |].
  apply (render_without_colors Regions (set_notebook [] blank) []); reflexivity.
Defined.

(** X5: when the content store has no entry for the topic of a tab
    method, the method raises [KeyError] on that topic key; the page
    it had begun stays in the notebook with its canvas and at most its
    first heading. *)
Theorem render_missing_topic
  (t : Topic) (s : App) (n : list Tab) (c : list (string * string))
  (bg : string) (d : list (string * Value)) :
  notebook s = Some n ->
  colors s = Some c ->
  assoc "background" c = Some bg ->
  kichwa_data s = Some (VDict d) ->
  ~ In (topic_key t) (keys d) ->
  fst (render t s) = Err (KeyError (topic_key t)) /\
  exists body,
    notebook (snd (render t s)) = Some (n ++ [mkTab (tab_title t) (Some bg) body])%list /\
    length body <= 1.
Proof.
  intros Hn Hc Hbg Hd Hk.
  pose proof (fun text => open_tab_ok text s n c bg Hn Hc Hbg) as Hopen.
  destruct t; cbn [render tab_title topic_key] in *;
    [ unfold SecondDefinition.create_overview_tab
    | unfold SecondDefinition.create_regions_tab
    | unfold SecondDefinition.create_language_tab
    | unfold SecondDefinition.create_traditions_tab
    | unfold SecondDefinition.create_worldview_tab
    | unfold SecondDefinition.create_design_tab ];
    rewrite (bind_ok _ _ _ _ _ (Hopen _));
    try (unfold subtitle;
         erewrite bind_ok by (apply pack_ok; reflexivity));
    (erewrite bind_err by (eapply kichwa_data_getitem_missing; [exact Hd | exact Hk]));
    (split; [reflexivity | eexists; split; [reflexivity | simpl; lia]]).
Qed.

Lemma render_missing_topic_witness :
  notebook (set_kichwa_data (VDict []) (fresh (started "03-11-2026"))) = Some [] /\
  colors (set_kichwa_data (VDict []) (fresh (started "03-11-2026"))) = Some palette /\
  assoc "background" palette = Some "#F5F5DC" /\
  ~ In (topic_key Regions) (keys (@nil (string * Value))) /\
  fst (render Regions (set_kichwa_data (VDict []) (fresh (started "03-11-2026"))))
  = Err (KeyError "regiones").
Proof.
  assert (Hk : ~ In (topic_key Regions) (keys (@nil (string * Value))))
    by (intros []).
  split; [reflexivity |]. split; [vm_compute; reflexivity |].
  split; [reflexivity |]. split; [exact Hk |].
  refine (proj1 (render_missing_topic Regions
                   (set_kichwa_data (VDict []) (fresh (started "03-11-2026")))
                   [] palette "#F5F5DC" [] _ _ _ _ Hk)).
  - reflexivity.
  - vm_compute. reflexivity.
  - reflexivity.
  - reflexivity.
Defined.

(** ** Further properties: styles, the first definition, the date *)

(** X19: on an object that has a root window the second
    [configure_styles] always succeeds, replaces whatever colours and
    style rules were there by its own six colours and eight rules,
    gives the window the background colour, and running it again
    changes nothing more. *)
Theorem configure_styles_idempotent (s : App) (r : Root) :
  root s = Some r ->
  fst (SecondDefinition.configure_styles s) = Ok tt /\
  colors (snd (SecondDefinition.configure_styles s)) = Some palette /\
  option_map (@length StyleRule) (style (snd (SecondDefinition.configure_styles s)))
  = Some 8 /\
  root (snd (SecondDefinition.configure_styles s))
  = Some (mkRoot (root_title r) (root_geometry r) (root_minsize r) (Some "#F5F5DC")) /\
  SecondDefinition.configure_styles (snd (SecondDefinition.configure_styles s))
  = (Ok tt, snd (SecondDefinition.configure_styles s)).
Proof.
  intro H. destruct s as [ro kd co st tl nb sl ab tr]. simpl in H. subst ro.
  repeat split; reflexivity.
Qed.

Lemma configure_styles_idempotent_witness :
  root (started "03-11-2026")
  = Some (mkRoot "Sistema de Información - Kichwas de Ecuador" "900x600"
                 (800, 500) (Some "#F5F5DC")) /\
  fst (SecondDefinition.configure_styles (started "03-11-2026")) = Ok tt /\
  SecondDefinition.configure_styles
    (snd (SecondDefinition.configure_styles (started "03-11-2026")))
  = (Ok tt, snd (SecondDefinition.configure_styles (started "03-11-2026"))).
Proof.
  assert (Hr : root (started "03-11-2026")
               = Some (mkRoot "Sistema de Información - Kichwas de Ecuador" "900x600"
                              (800, 500) (Some "#F5F5DC")))
    by (vm_compute; reflexivity).
  split; [exact Hr |].
  destruct (configure_styles_idempotent (started "03-11-2026") _ Hr)
    as [H1 [_ [_ [_ H5]]]].
  split; [exact H1 | exact H5].
Defined.

(** X20: on an object without a root window the second
    [configure_styles] raises [AttributeError] only at its last step:
    the colours and the eight style rules are already in place. *)
Theorem configure_styles_without_root (s : App) :
  root s = None ->
  fst (SecondDefinition.configure_styles s) = Err (AttributeError "root") /\
  colors (snd (SecondDefinition.configure_styles s)) = Some palette /\
  option_map (@length StyleRule) (style (snd (SecondDefinition.configure_styles s)))
  = Some 8.
Proof.
  intro H. destruct s as [ro kd co st tl nb sl ab tr]. simpl in H. subst ro.
  repeat split; reflexivity.
Qed.

Lemma configure_styles_without_root_witness :
  root blank = None /\
  fst (SecondDefinition.configure_styles blank) = Err (AttributeError "root").
Proof.
  split; [reflexivity |].
  exact (proj1 (configure_styles_without_root blank eq_refl)).
Defined.

Lemma bind_fails_left {A B} (m : M A) (k : A -> M B) (s : App) :
  succeeded (fst (m s)) = false -> succeeded (fst (bind m k s)) = false.
Proof.
  unfold bind. destruct (m s) as [[a | e] s']; simpl; [discriminate | reflexivity].
Qed.

Lemma bind_fails_right {A B} (m : M A) (k : A -> M B) :
  (forall a s, succeeded (fst (k a s)) = false) ->
  forall s, succeeded (fst (bind m k s)) = false.
Proof.
  intros H s. unfold bind. destruct (m s) as [[a | e] s']; simpl;
    [apply H | reflexivity].
Qed.

Lemma status_refl (s : App) : same_status_bar s s.
Proof. split; reflexivity. Qed.

Lemma status_trans (s1 s2 s3 : App) :
  same_status_bar s1 s2 -> same_status_bar s2 s3 -> same_status_bar s1 s3.
Proof. intros [H1 H2] [H3 H4]. split; congruence. Qed.

Lemma status_modify (f : App -> App) :
  (forall s, same_status_bar s (f s)) -> preserves same_status_bar (modify f).
Proof. intros H s. apply H. Qed.

Lemma status_bind_raise {A B} (e : PyErr) (k : A -> M B) :
  preserves same_status_bar (bind (raise e) k).
Proof. intro s. apply status_refl. Qed.

(** One step of a proof that a method leaves the status bar alone:
    composite operations are opened down to the primitives. *)
Ltac status_step :=
  match goal with
  | |- preserves _ (bind (raise _) _) => apply status_bind_raise
  | |- preserves _ (bind _ _) =>
      apply (preserves_bind _ status_trans); [| intro]
  | |- preserves _ (ret _) => apply (preserves_ret _ status_refl)
  | |- preserves _ (lift _) => apply (preserves_lift _ status_refl)
  | |- preserves _ (raise _) => apply (preserves_raise _ status_refl)
  | |- preserves _ (get_attr _ _) => apply (preserves_get_attr _ status_refl)
  | |- preserves _ (modify _) =>
      apply status_modify; intro; split; reflexivity
  | |- preserves _ (for_each _ _) =>
      apply (preserves_for_each _ status_refl status_trans); intro
  | |- preserves _ (for_fold _ _ _) =>
      apply (preserves_for_fold _ status_refl status_trans); intros
  | |- preserves _ (colors_getitem _) => unfold colors_getitem
  | |- preserves _ (kichwa_data_getitem _) => unfold kichwa_data_getitem
  | |- preserves _ (pack _) => unfold pack
  | |- preserves _ (subtitle _) => unfold subtitle
  | |- preserves _ (open_tab _) => unfold open_tab
  | |- preserves _ (notebook_add _) => unfold notebook_add
  | |- preserves _ create_canvas => unfold create_canvas
  | |- preserves _ (scrolled_text _ _) => unfold scrolled_text
  | |- preserves _ (two_columns _) => unfold two_columns
  | |- preserves _ (titled_entry _ _ _) => unfold titled_entry
  | |- preserves _ (returns_none _) => unfold returns_none
  | |- preserves _ (if ?b then _ else _) => destruct b
  | |- preserves _ (match ?x with _ => _ end) => destruct x
  | |- preserves _ ((match ?x with _ => _ end) _) => destruct x
  | |- preserves _ (let _ := _ in _) => cbv zeta
  end.

Ltac status_auto := repeat (cbv beta; status_step).

(** The tab methods of the first definition leave the status bar
    alone. *)
Lemma first_tabs_keep_status_bar :
  preserves same_status_bar FirstDefinition.create_overview_tab /\
  preserves same_status_bar FirstDefinition.create_regions_tab /\
  preserves same_status_bar FirstDefinition.create_language_tab /\
  preserves same_status_bar FirstDefinition.create_traditions_tab /\
  preserves same_status_bar FirstDefinition.create_worldview_tab.
Proof.
  unfold FirstDefinition.create_overview_tab, FirstDefinition.create_regions_tab,
    FirstDefinition.create_language_tab, FirstDefinition.create_traditions_tab,
    FirstDefinition.create_worldview_tab.
  split; [| split; [| split; [| split]]]; status_auto.
Qed.

(** X21: the first definition of the class cannot start on any
    object.  Its [__init__] raises [AttributeError] for
    [load_kichwa_data], which the class does not define, before any
    other method is entered.  Its [create_widgets] never returns
    either and never reaches the status bar, which it leaves as it
    found it; with the store and the colours of the second definition
    in place it adds its five tabs and raises [AttributeError] for
    [create_demographics_tab]. *)
Theorem first_definition_cannot_start (today : string) (s : App) :
  FirstDefinition.__init__ today s
  = (Err (AttributeError "load_kichwa_data"),
     set_root (mkRoot "Sistema de Información - Kichwas de Ecuador"
                      "1000x700" (800, 600) None) s) /\
  succeeded (fst (FirstDefinition.create_widgets today s)) = false /\
  same_status_bar s (snd (FirstDefinition.create_widgets today s)) /\
  fst (FirstDefinition.create_widgets today (started today))
  = Err (AttributeError "create_demographics_tab") /\
  tab_texts (snd (FirstDefinition.create_widgets today (started today)))
  = ["Información General"; "Regiones"; "Idioma"; "Tradiciones"; "Cosmovisión"].
Proof.
  split; [reflexivity |]. split; [| split].
  - revert s. unfold FirstDefinition.create_widgets.
    do 7 (apply bind_fails_right; intros _).
    intro s. apply bind_fails_left. reflexivity.
  - destruct first_tabs_keep_status_bar as [H1 [H2 [H3 [H4 H5]]]].
    revert s. change (preserves same_status_bar (FirstDefinition.create_widgets today)).
    unfold FirstDefinition.create_widgets.
    change (call First FirstDefinition.plain_methods "create_overview_tab")
      with (modify (log (First, "create_overview_tab")) ;;
            returns_none FirstDefinition.create_overview_tab).
    change (call First FirstDefinition.plain_methods "create_regions_tab")
      with (modify (log (First, "create_regions_tab")) ;;
            returns_none FirstDefinition.create_regions_tab).
    change (call First FirstDefinition.plain_methods "create_language_tab")
      with (modify (log (First, "create_language_tab")) ;;
            returns_none FirstDefinition.create_language_tab).
    change (call First FirstDefinition.plain_methods "create_traditions_tab")
      with (modify (log (First, "create_traditions_tab")) ;;
            returns_none FirstDefinition.create_traditions_tab).
    change (call First FirstDefinition.plain_methods "create_worldview_tab")
      with (modify (log (First, "create_worldview_tab")) ;;
            returns_none FirstDefinition.create_worldview_tab).
    change (call First FirstDefinition.plain_methods "create_demographics_tab")
      with (@raise Value (AttributeError "create_demographics_tab")).
    repeat (cbv beta;
            first [ exact H1 | exact H2 | exact H3 | exact H4 | exact H5
                  | status_step ]).
  - split; vm_compute; reflexivity.
Qed.

(** X22: the date read at start-up shows in the text of the status
    label and nowhere else in the application object. *)
Theorem date_only_in_status_label (today today' : string) :
  status_label (started today) = Some (status_text today) /\
  set_status_label EmptyString (started today)
  = set_status_label EmptyString (started today').
Proof. split; vm_compute; reflexivity. Qed.

(** ** Further properties: the two-column grids *)

Lemma two_columns_step (i : nat) :
  (if (1 <? i mod 2 + 1)%nat then (i / 2 + 1, 0) else (i / 2, i mod 2 + 1))
  = (S i / 2, S i mod 2).
Proof.
  pose proof (Nat.div_mod_eq i 2) as Hi.
  pose proof (Nat.mod_upper_bound i 2 ltac:(lia)) as Hlt.
  destruct (Nat.ltb_spec 1 (i mod 2 + 1)) as [H | H].
  - assert (Hq : i / 2 + 1 = S i / 2)
      by (apply (Nat.div_unique (S i) 2 (i / 2 + 1) 0); lia).
    assert (Hr : 0 = S i mod 2)
      by (apply (Nat.mod_unique (S i) 2 (i / 2 + 1) 0); lia).
    congruence.
  - assert (Hq : i / 2 = S i / 2)
      by (apply (Nat.div_unique (S i) 2 (i / 2) 1); lia).
    assert (Hr : 1 = S i mod 2)
      by (apply (Nat.mod_unique (S i) 2 (i / 2) 1); lia).
    assert (Hm : i mod 2 + 1 = 1) by lia.
    congruence.
Qed.

Lemma two_columns_loop (texts : list string) (s : App) :
  forall (i : nat) (cells : list Widget),
    for_fold (map VStr texts) (i / 2, i mod 2, cells)
      (fun '(row, col, cells) x =>
         t <- lift (as_str x) ;;
         let cells := (cells ++ [Grid row col (Label ("• " ++ t) None None)])%list in
         let col := col + 1 in
         if (1 <? col)%nat then ret (row + 1, 0, cells) else ret (row, col, cells)) s
    = (Ok ((i + length texts) / 2, (i + length texts) mod 2,
           (cells ++ place_from i texts)%list), s).
Proof.
  induction texts as [| t texts IH]; intros i cells.
  - cbn [map for_fold place_from length]. unfold ret.
    rewrite Nat.add_0_r, app_nil_r. reflexivity.
  - cbn [map for_fold place_from length].
    match goal with
    | |- bind ?m ?k s = _ =>
        assert (Hstep : m s = (Ok (S i / 2, S i mod 2,
                                   (cells ++ [Grid (i / 2) (i mod 2)
                                                (Label ("• " ++ t) None None)])%list), s))
    end.
    { unfold bind, lift, ret. cbn [as_str]. cbv zeta.
      generalize (two_columns_step i).
      destruct (1 <? i mod 2 + 1)%nat; intro H; congruence. }
    rewrite (bind_ok _ _ _ _ _ Hstep). rewrite IH.
    rewrite <- app_assoc. cbn [app].
    replace (S i + length texts) with (i + S (length texts)) by lia.
    reflexivity.
Qed.

Lemma two_columns_cells (texts : list string) (s : App) :
  two_columns (map VStr texts) s = (Ok (place_from 0 texts), s).
Proof.
  unfold two_columns.
  rewrite (bind_ok _ _ _ _ _ (two_columns_loop texts s 0 [])).
  reflexivity.
Qed.

(** X18: the two-column grid of bullet rows places its items row by
    row: the item at position [i] goes to row [i / 2], column
    [i mod 2], whatever the number of items, and the object is left as
    it was. *)
Theorem two_columns_placement (texts : list string) (s : App) :
  two_columns (map VStr texts) s = (Ok (place_from 0 texts), s).
Proof.
  unfold two_columns.
  rewrite (bind_ok _ _ _ _ _ (two_columns_loop texts s 0 [])).
  reflexivity.
Qed.

(** ** Further properties: what a page holds, for any store *)

(** Steps of a tab method on an object whose last page is the one
    under construction. *)
Section OnPage.

Variables (s : App) (n : list Tab) (title : string) (cv : option string).
Variable c : list (string * string).
Hypothesis Hcolors : colors s = Some c.

Lemma pack_on_page (w : Widget) (b : list Widget) :
  pack w (with_page s n title cv b) = (Ok tt, with_page s n title cv (b ++ [w])).
Proof.
  unfold with_page.
  rewrite (pack_ok w _ n (mkTab title cv b)) by reflexivity. reflexivity.
Qed.

Lemma subtitle_on_page (text : string) (b : list Widget) :
  subtitle text (with_page s n title cv b)
  = (Ok tt, with_page s n title cv (b ++ [subtitle_label text])).
Proof. apply pack_on_page. Qed.

Lemma color_on_page (name v : string) (b : list Widget) :
  assoc name c = Some v ->
  colors_getitem name (with_page s n title cv b) = (Ok v, with_page s n title cv b).
Proof.
  intro H. unfold colors_getitem, bind, get_attr, lift, dict_getitem.
  change (colors (with_page s n title cv b)) with (colors s).
  rewrite Hcolors, H. reflexivity.
Qed.

Lemma kichwa_on_page (key : string) (d v : Value) (b : list Widget) :
  kichwa_data s = Some d -> getitem d key = Ok v ->
  kichwa_data_getitem key (with_page s n title cv b)
  = (Ok v, with_page s n title cv b).
Proof.
  intros Hd Hv. unfold kichwa_data_getitem, bind, get_attr, lift.
  change (kichwa_data (with_page s n title cv b)) with (kichwa_data s).
  rewrite Hd, Hv. reflexivity.
Qed.

Lemma scrolled_on_page (h : nat) (t bg fg : string) (b : list Widget) :
  assoc "background" c = Some bg -> assoc "text" c = Some fg ->
  scrolled_text h (Ok (VStr t)) (with_page s n title cv b)
  = (Ok (ScrolledText t h bg fg), with_page s n title cv b).
Proof.
  intros Hbg Hfg. unfold scrolled_text.
  unfold bind at 1. unfold lift at 1.
  unfold bind at 1. unfold lift at 1. cbn [as_str].
  rewrite (bind_ok _ _ _ _ _ (color_on_page "background" bg b Hbg)).
  rewrite (bind_ok _ _ _ _ _ (color_on_page "text" fg b Hfg)).
  reflexivity.
Qed.

Lemma titled_on_page (token ttl desc fg : string) (b : list Widget) :
  assoc token c = Some fg ->
  titled_entry token ttl (VStr desc) (with_page s n title cv b)
  = (Ok tt, with_page s n title cv (b ++ [entry fg ttl desc])).
Proof.
  intro Hfg. unfold titled_entry.
  rewrite (bind_ok _ _ _ _ _ (color_on_page token fg b Hfg)).
  unfold bind at 1. unfold lift at 1. cbn [as_str].
  apply pack_on_page.
Qed.

Lemma for_each_on_page {A B} (g : A -> B) (body : B -> M unit) (f : A -> Widget) :
  (forall x b, body (g x) (with_page s n title cv b)
               = (Ok tt, with_page s n title cv (b ++ [f x]))) ->
  forall l b, for_each (map g l) body (with_page s n title cv b)
              = (Ok tt, with_page s n title cv (b ++ map f l)).
Proof.
  intro Hbody. unfold for_each.
  induction l as [| x l IH]; intro b; cbn [for_fold map].
  - rewrite app_nil_r. reflexivity.
  - rewrite (bind_ok _ _ _ _ _ (Hbody x b)). rewrite IH.
    rewrite <- app_assoc. reflexivity.
Qed.

(** A loop stops at the first item whose body raises; the blocks of
    the items before it stay on the page. *)
Lemma for_each_raises_on_page {A B} (g : A -> B) (body : B -> M unit)
  (f : A -> Widget) (e : PyErr) (before : list A) (x : B) (after : list B) :
  (forall y b, body (g y) (with_page s n title cv b)
               = (Ok tt, with_page s n title cv (b ++ [f y]))) ->
  (forall b, body x (with_page s n title cv b)
             = (Err e, with_page s n title cv b)) ->
  forall b, for_each (map g before ++ x :: after) body (with_page s n title cv b)
            = (Err e, with_page s n title cv (b ++ map f before)).
Proof.
  intros Hbefore Hx. unfold for_each.
  induction before as [| y before IH]; intro b; cbn [for_fold map app].
  - rewrite (bind_err _ _ _ _ _ (Hx b)). rewrite app_nil_r. reflexivity.
  - rewrite (bind_ok _ _ _ _ _ (Hbefore y b)). rewrite IH.
    rewrite <- app_assoc. reflexivity.
Qed.

End OnPage.

Lemma open_tab_on_page (text : string) (s : App) (n : list Tab)
  (c : list (string * string)) (bg : string) :
  notebook s = Some n -> colors s = Some c -> assoc "background" c = Some bg ->
  open_tab text s = (Ok tt, with_page s n text (Some bg) []).
Proof. apply open_tab_ok. Qed.

Lemma enumerate_from_map {A B} (g : A -> B) (l : list A) (i : nat) :
  enumerate_from i (map g l)
  = map (fun p : nat * A => (fst p, g (snd p))) (enumerate_from i l).
Proof.
  revert i. induction l as [| x l IH]; intro i; simpl; [reflexivity |].
  rewrite IH. reflexivity.
Qed.

Lemma map_enumerate_from {A B} (f : A -> B) (l : list A) (i : nat) :
  map (fun p : nat * A => f (snd p)) (enumerate_from i l) = map f l.
Proof.
  revert i. induction l as [| x l IH]; intro i; simpl; [reflexivity |].
  rewrite IH. reflexivity.
Qed.

(** X6: the overview page, for any content store and any colours
    that hold what the method reads: three headed paragraphs with
    heights 6, 8 and 4, then under a fourth heading one bullet per
    characteristic, in the order of the store; the bullet takes the
    primary colour and the paragraphs the background and text
    colours. *)
Theorem overview_page
  (s : App) (n : list Tab) (c : list (string * string)) (bg fg pr : string)
  (store ov : Value) (intro hist geo : string) (items : list string) :
  notebook s = Some n ->
  colors s = Some c ->
  assoc "background" c = Some bg ->
  assoc "text" c = Some fg ->
  assoc "primary" c = Some pr ->
  kichwa_data s = Some store ->
  getitem store "informacion_general" = Ok ov ->
  getitem ov "introduccion" = Ok (VStr intro) ->
  getitem ov "historia" = Ok (VStr hist) ->
  getitem ov "distribucion_geografica" = Ok (VStr geo) ->
  getitem ov "caracteristicas_culturales" = Ok (VList (map VStr items)) ->
  render Overview s
  = (Ok tt,
     with_page s n "Información General" (Some bg)
       ([subtitle_label "¿Quiénes son los Kichwas?"; ScrolledText intro 6 bg fg;
         subtitle_label "Historia"; ScrolledText hist 8 bg fg;
         subtitle_label "Distribución Geográfica"; ScrolledText geo 4 bg fg;
         subtitle_label "Características Culturales Destacadas"]
        ++ map (bullet pr) items)).
Proof.
  intros Hn Hc Hbg Hfg Hpr Hd Hov Hintro Hhist Hgeo Hitems.
  cbn [render]. unfold SecondDefinition.create_overview_tab.
  rewrite (bind_ok _ _ _ _ _ (open_tab_on_page _ s n c bg Hn Hc Hbg)).
  rewrite (bind_ok _ _ _ _ _ (kichwa_on_page s n _ _ _ _ _ _ Hd Hov)).
  rewrite (bind_ok _ _ _ _ _ (subtitle_on_page s n _ _ _ _)).
  rewrite Hintro.
  rewrite (bind_ok _ _ _ _ _ (scrolled_on_page s n _ _ c Hc _ _ _ _ _ Hbg Hfg)).
  rewrite (bind_ok _ _ _ _ _ (pack_on_page s n _ _ _ _)).
  rewrite (bind_ok _ _ _ _ _ (subtitle_on_page s n _ _ _ _)).
  rewrite Hhist.
  rewrite (bind_ok _ _ _ _ _ (scrolled_on_page s n _ _ c Hc _ _ _ _ _ Hbg Hfg)).
  rewrite (bind_ok _ _ _ _ _ (pack_on_page s n _ _ _ _)).
  rewrite (bind_ok _ _ _ _ _ (subtitle_on_page s n _ _ _ _)).
  rewrite Hgeo.
  rewrite (bind_ok _ _ _ _ _ (scrolled_on_page s n _ _ c Hc _ _ _ _ _ Hbg Hfg)).
  rewrite (bind_ok _ _ _ _ _ (pack_on_page s n _ _ _ _)).
  rewrite (bind_ok _ _ _ _ _ (subtitle_on_page s n _ _ _ _)).
  rewrite Hitems. unfold bind at 1. unfold lift at 1. cbn [rbind iter].
  unfold enumerate. rewrite enumerate_from_map.
  rewrite (for_each_on_page s n _ _ _ _ (fun p => bullet pr (snd p))).
  - rewrite map_enumerate_from. reflexivity.
  - intros [idx x] b.
    rewrite (bind_ok _ _ _ _ _ (color_on_page s n _ _ c Hc _ _ _ Hpr)).
    unfold bind at 1. unfold lift at 1. cbn [as_str snd].
    apply pack_on_page.
Qed.

Lemma overview_page_witness :
  exists ov intro hist geo items,
    getitem load_kichwa_data "informacion_general" = Ok ov /\
    getitem ov "caracteristicas_culturales" = Ok (VList (map VStr items)) /\
    length items = 5 /\
    render Overview (fresh (started "03-11-2026"))
    = (Ok tt,
       with_page (fresh (started "03-11-2026")) [] "Información General" (Some "#F5F5DC")
         ([subtitle_label "¿Quiénes son los Kichwas?";
           ScrolledText intro 6 "#F5F5DC" "#343e40";
           subtitle_label "Historia"; ScrolledText hist 8 "#F5F5DC" "#343e40";
           subtitle_label "Distribución Geográfica";
           ScrolledText geo 4 "#F5F5DC" "#343e40";
           subtitle_label "Características Culturales Destacadas"]
          ++ map (bullet "#8B2323") items)).
Proof.
  eexists. eexists. eexists. eexists.
  exists (texts_of (match rbind (rbind (getitem load_kichwa_data "informacion_general")
                                       (fun ov => getitem ov "caracteristicas_culturales"))
                                iter with
                    | Ok l => l
                    | Err _ => []
                    end)).
  split; [vm_compute; reflexivity |].
  split; [vm_compute; reflexivity |].
  split; [vm_compute; reflexivity |].
  eapply (overview_page (fresh (started "03-11-2026")) [] palette
            "#F5F5DC" "#343e40" "#8B2323" load_kichwa_data);
    vm_compute; reflexivity.
Defined.

(** Steps that need no case analysis: a heading, a packed block, a
    paragraph whose text has been found. *)
Ltac page_steps s n c Hc Hbg Hfg :=
  repeat first
    [ rewrite (bind_ok _ _ _ _ _ (subtitle_on_page s n _ _ _ _))
    | rewrite (bind_ok _ _ _ _ _ (pack_on_page s n _ _ _ _))
    | rewrite (bind_ok _ _ _ _ _ (scrolled_on_page s n _ _ c Hc _ _ _ _ _ Hbg Hfg)) ].


Lemma vocab_loop (rows : list (string * string * string)) (st : App) :
  forall (i : nat) (cells : list Widget),
    for_fold (enumerate_from i (map row_value rows)) cells
      (fun cells '(i, row) =>
         '(spanish, kichwa, pron) <- lift (unpack3 row) ;;
         spanish <- lift (as_str spanish) ;;
         kichwa <- lift (as_str kichwa) ;;
         pron <- lift (as_str pron) ;;
         ret (cells ++ [Grid (i + 1) 0 (Label spanish None None);
                        Grid (i + 1) 1 (Label kichwa None None);
                        Grid (i + 1) 2 (Label pron None None)])%list) st
    = (Ok (cells ++ vocab_cells_from i rows)%list, st).
Proof.
  induction rows as [| [[a b] d] rows IH]; intros i cells;
    cbn [map enumerate_from for_fold vocab_cells_from].
  - unfold ret. rewrite app_nil_r. reflexivity.
  - unfold bind at 1. cbn. rewrite IH. rewrite <- app_assoc. reflexivity.
Qed.


(** X8: the language page, for any content store and any colours
    that hold what the method reads: the general description, one
    titled entry per linguistic feature, then the vocabulary grid with
    its three headers and three cells per row, row [i] of the store in
    grid row [i + 1], then the two closing paragraphs. *)
Theorem language_page
  (s : App) (n : list Tab) (c : list (string * string)) (bg fg sec : string)
  (store lang : Value) (general status dialect : string)
  (features : list (string * string)) (rows : list (string * string * string)) :
  notebook s = Some n ->
  colors s = Some c ->
  assoc "background" c = Some bg ->
  assoc "text" c = Some fg ->
  assoc "secondary" c = Some sec ->
  kichwa_data s = Some store ->
  getitem store "idioma" = Ok lang ->
  getitem lang "descripcion_general" = Ok (VStr general) ->
  getitem lang "caracteristicas" = Ok (dict_of_strings features) ->
  getitem lang "vocabulario_basico" = Ok (VList (map row_value rows)) ->
  getitem lang "estado_actual" = Ok (VStr status) ->
  getitem lang "variaciones_dialectales" = Ok (VStr dialect) ->
  render Language s
  = (Ok tt,
     with_page s n "Idioma" (Some bg)
       ([subtitle_label "Kichwa Ecuatoriano (Runa Shimi)";
         ScrolledText general 5 bg fg;
         subtitle_label "Características Lingüísticas"]
        ++ map (fun p => entry sec (fst p) (snd p)) features
        ++ [subtitle_label "Vocabulario Básico";
            Frame (vocab_headers ++ vocab_cells_from 0 rows);
            subtitle_label "Estado Actual del Idioma";
            ScrolledText status 6 bg fg;
            subtitle_label "Variaciones Dialectales";
            ScrolledText dialect 4 bg fg])).
Proof.
  intros Hn Hc Hbg Hfg Hsec Hd Hlang Hgen Hfeat Hrows Hstatus Hdialect.
  cbn [render]. unfold SecondDefinition.create_language_tab.
  rewrite (bind_ok _ _ _ _ _ (open_tab_on_page _ s n c bg Hn Hc Hbg)).
  page_steps s n c Hc Hbg Hfg.
  rewrite (bind_ok _ _ _ _ _ (kichwa_on_page s n _ _ _ _ _ _ Hd Hlang)).
  rewrite Hgen. page_steps s n c Hc Hbg Hfg.
  rewrite Hfeat. unfold bind at 1. unfold lift at 1.
  cbn [rbind items dict_of_strings].
  erewrite bind_ok
    by (apply (for_each_on_page s n _ _ _ _ (fun p => entry sec (fst p) (snd p)));
        intros [k v] b; apply (titled_on_page s n _ _ c Hc); exact Hsec).
  page_steps s n c Hc Hbg Hfg.
  cbv zeta. rewrite Hrows. unfold bind at 1. unfold lift at 1. cbn [rbind iter].
  unfold enumerate.
  rewrite (bind_ok _ _ _ _ _ (vocab_loop rows _ 0 _)).
  page_steps s n c Hc Hbg Hfg.
  rewrite Hstatus. page_steps s n c Hc Hbg Hfg.
  rewrite Hdialect.
  rewrite (bind_ok _ _ _ _ _ (scrolled_on_page s n _ _ c Hc _ _ _ _ _ Hbg Hfg)).
  rewrite (pack_on_page s n). unfold with_page.
  repeat rewrite <- app_assoc. reflexivity.
Qed.

Lemma language_page_witness :
  exists general status dialect,
    render Language (fresh (started "03-11-2026"))
    = (Ok tt,
       with_page (fresh (started "03-11-2026")) [] "Idioma" (Some "#F5F5DC")
         ([subtitle_label "Kichwa Ecuatoriano (Runa Shimi)";
           ScrolledText general 5 "#F5F5DC" "#343e40";
           subtitle_label "Características Lingüísticas"]
          ++ map (fun p => entry "#CD853F" (fst p) (snd p))
                 (pairs_of (at_path load_kichwa_data ["idioma"; "caracteristicas"]))
          ++ [subtitle_label "Vocabulario Básico";
              Frame (vocab_headers
                     ++ vocab_cells_from 0
                          (rows_of (list_items
                                      (at_path load_kichwa_data
                                               ["idioma"; "vocabulario_basico"]))));
              subtitle_label "Estado Actual del Idioma";
              ScrolledText status 6 "#F5F5DC" "#343e40";
              subtitle_label "Variaciones Dialectales";
              ScrolledText dialect 4 "#F5F5DC" "#343e40"])).
Proof.
  do 3 eexists.
  eapply (language_page (fresh (started "03-11-2026")) [] palette
            "#F5F5DC" "#343e40" "#CD853F" load_kichwa_data
            (at_path load_kichwa_data ["idioma"]));
    vm_compute; reflexivity.
Defined.



Lemma for_each_on_page_if {A B} (s : App) (n : list Tab) (title : string)
  (cv : option string) (g : A -> B) (body : B -> M unit) (f : A -> Widget)
  (good : A -> Prop) :
  (forall x b, good x ->
               body (g x) (with_page s n title cv b)
               = (Ok tt, with_page s n title cv (b ++ [f x]))) ->
  forall l b, Forall good l ->
              for_each (map g l) body (with_page s n title cv b)
              = (Ok tt, with_page s n title cv (b ++ map f l)).
Proof.
  intro Hbody. unfold for_each.
  induction l as [| x l IH]; intros b Hl; cbn [for_fold map].
  - rewrite app_nil_r. reflexivity.
  - inversion Hl as [| ? ? Hx Hrest]; subst.
    rewrite (bind_ok _ _ _ _ _ (Hbody x b Hx)). rewrite (IH _ Hrest).
    rewrite <- app_assoc. reflexivity.
Qed.


(** The body of the loop over the colours, on a well-formed label
    and on a label without a space. *)
Lemma color_body_on_page (s : App) (n : list Tab) (title : string)
  (cv : option string) (c : list (string * string)) (sec : string)
  (col : string * string * string) (b : list Widget) :
  colors s = Some c -> assoc "secondary" c = Some sec ->
  well_formed_color col ->
  (fun '(color, meaning) =>
     '(color_name, kichwa_name) <- lift (SecondDefinition.parse_color color) ;;
     titled_entry "secondary" (color_name ++ " - " ++ kichwa_name) meaning)
    (color_value col) (with_page s n title cv b)
  = (Ok tt, with_page s n title cv (b ++ [color_entry sec col])).
Proof.
  intros Hc Hsec. destruct col as [[name kichwa] meaning].
  intros [Hn [Hk [Hl Hr]]].
  unfold color_value, color_label, color_entry. cbn [fst snd].
  unfold bind at 1. unfold lift at 1.
  rewrite (parse_color_label name kichwa Hn Hk Hl Hr).
  apply (titled_on_page s n title cv c Hc). exact Hsec.
Qed.


(** X12: the design page, for any content store and any colours that
    hold what the method reads and any list of well-formed colour
    labels: the introduction, then one entry per colour, in the order
    of the store, headed "Spanish name - Kichwa name" over its meaning,
    then the two closing paragraphs. *)
Theorem design_page
  (s : App) (n : list Tab) (c : list (string * string)) (bg fg sec : string)
  (store design : Value) (intro chakana textiles : string)
  (cols : list (string * string * string)) :
  notebook s = Some n ->
  colors s = Some c ->
  assoc "background" c = Some bg ->
  assoc "text" c = Some fg ->
  assoc "secondary" c = Some sec ->
  kichwa_data s = Some store ->
  getitem store "diseno_cultural" = Ok design ->
  getitem design "introduccion" = Ok (VStr intro) ->
  getitem design "significado_colores" = Ok (VDict (map color_value cols)) ->
  Forall well_formed_color cols ->
  getitem design "chakana" = Ok (VStr chakana) ->
  getitem design "disenos_textiles" = Ok (VStr textiles) ->
  render Design s
  = (Ok tt,
     with_page s n "Diseño Cultural" (Some bg)
       ([subtitle_label "Elementos de Diseño Cultural";
         ScrolledText intro 4 bg fg;
         subtitle_label "Significado de los Colores"]
        ++ map (color_entry sec) cols
        ++ [subtitle_label "La Chakana (Cruz Andina)";
            ScrolledText chakana 4 bg fg;
            subtitle_label "Diseños Textiles";
            ScrolledText textiles 4 bg fg])).
Proof.
  intros Hn Hc Hbg Hfg Hsec Hd Hdesign Hintro Hcols Hwf Hchakana Htextiles.
  cbn [render]. unfold SecondDefinition.create_design_tab.
  rewrite (bind_ok _ _ _ _ _ (open_tab_on_page _ s n c bg Hn Hc Hbg)).
  rewrite (bind_ok _ _ _ _ _ (kichwa_on_page s n _ _ _ _ _ _ Hd Hdesign)).
  page_steps s n c Hc Hbg Hfg.
  rewrite Hintro. page_steps s n c Hc Hbg Hfg.
  rewrite Hcols. unfold bind at 1. unfold lift at 1. cbn [rbind items].
  erewrite bind_ok
    by (apply (for_each_on_page_if s n _ _ _ _ (color_entry sec) well_formed_color);
        [intros col b Hcol; apply (color_body_on_page s n _ _ c sec col b Hc Hsec Hcol)
        | exact Hwf]).
  page_steps s n c Hc Hbg Hfg.
  rewrite Hchakana. page_steps s n c Hc Hbg Hfg.
  rewrite Htextiles.
  rewrite (bind_ok _ _ _ _ _ (scrolled_on_page s n _ _ c Hc _ _ _ _ _ Hbg Hfg)).
  rewrite (pack_on_page s n). unfold with_page.
  repeat rewrite <- app_assoc. reflexivity.
Qed.

Lemma design_page_witness :
  exists intro chakana textiles,
    length (colors_of (at_path load_kichwa_data
                               ["diseno_cultural"; "significado_colores"])) = 6 /\
    render Design (fresh (started "03-11-2026"))
    = (Ok tt,
       with_page (fresh (started "03-11-2026")) [] "Diseño Cultural" (Some "#F5F5DC")
         ([subtitle_label "Elementos de Diseño Cultural";
           ScrolledText intro 4 "#F5F5DC" "#343e40";
           subtitle_label "Significado de los Colores"]
          ++ map (color_entry "#CD853F")
                 (colors_of (at_path load_kichwa_data
                                     ["diseno_cultural"; "significado_colores"]))
          ++ [subtitle_label "La Chakana (Cruz Andina)";
              ScrolledText chakana 4 "#F5F5DC" "#343e40";
              subtitle_label "Diseños Textiles";
              ScrolledText textiles 4 "#F5F5DC" "#343e40"])).
Proof.
  do 3 eexists. split; [vm_compute; reflexivity |].
  eapply (design_page (fresh (started "03-11-2026")) [] palette
            "#F5F5DC" "#343e40" "#CD853F" load_kichwa_data
            (at_path load_kichwa_data ["diseno_cultural"]));
    try (vm_compute; reflexivity).
  vm_compute. repeat constructor.
Defined.



Lemma region_body_on_page (s : App) (n : list Tab) (title : string)
  (cv : option string) (c : list (string * string)) (bg fg pr : string)
  (r : string * string * list string) (b : list Widget) :
  colors s = Some c ->
  assoc "background" c = Some bg -> assoc "text" c = Some fg ->
  assoc "primary" c = Some pr ->
  (fun '(region, info) =>
     fg <- colors_getitem "primary" ;;
     let region_title := Label region None (Some fg) in
     desc_text <- scrolled_text 4 (getitem info "descripcion") ;;
     let communities_label := Label "Comunidades principales:" None None in
     comunidades <- lift (rbind (getitem info "comunidades") iter) ;;
     cells <- two_columns comunidades ;;
     pack (Frame [region_title; desc_text; communities_label; Frame cells]))
    (region_value r) (with_page s n title cv b)
  = (Ok tt, with_page s n title cv (b ++ [region_block pr bg fg r])).
Proof.
  intros Hc Hbg Hfg Hpr. destruct r as [[name desc] communities].
  unfold region_value, region_block.
  rewrite (bind_ok _ _ _ _ _ (color_on_page s n _ _ c Hc _ _ _ Hpr)).
  cbv zeta.
  change (getitem (VDict [("descripcion", VStr desc);
                          ("comunidades", VList (map VStr communities))])
                  "descripcion")
    with (Ok (VStr desc)).
  rewrite (bind_ok _ _ _ _ _ (scrolled_on_page s n _ _ c Hc _ _ _ _ _ Hbg Hfg)).
  unfold bind at 1. unfold lift at 1.
  change (rbind (getitem (VDict [("descripcion", VStr desc);
                                 ("comunidades", VList (map VStr communities))])
                         "comunidades") iter)
    with (Ok (map VStr communities)).
  cbv beta iota.
  rewrite (bind_ok _ _ _ _ _ (two_columns_cells communities _)).
  apply pack_on_page.
Qed.

(** X7: the regions page, for any content store and any colours that
    hold what the method reads: the introduction, then one block per
    region, in the order of the store, with the name of the region in
    the primary colour, its description and its communities laid out
    in two columns. *)
Theorem regions_page
  (s : App) (n : list Tab) (c : list (string * string)) (bg fg pr : string)
  (store regiones : Value) (intro : string)
  (regs : list (string * string * list string)) :
  notebook s = Some n ->
  colors s = Some c ->
  assoc "background" c = Some bg ->
  assoc "text" c = Some fg ->
  assoc "primary" c = Some pr ->
  kichwa_data s = Some store ->
  getitem store "regiones" = Ok regiones ->
  getitem regiones "introduccion" = Ok (VStr intro) ->
  getitem regiones "pueblos" = Ok (VDict (map region_value regs)) ->
  render Regions s
  = (Ok tt,
     with_page s n "Regiones" (Some bg)
       ([subtitle_label "Pueblos Kichwas por Regiones Geográficas";
         ScrolledText intro 4 bg fg]
        ++ map (region_block pr bg fg) regs)).
Proof.
  intros Hn Hc Hbg Hfg Hpr Hd Hreg Hintro Hpueblos.
  cbn [render]. unfold SecondDefinition.create_regions_tab.
  rewrite (bind_ok _ _ _ _ _ (open_tab_on_page _ s n c bg Hn Hc Hbg)).
  page_steps s n c Hc Hbg Hfg.
  rewrite (bind_ok _ _ _ _ _ (kichwa_on_page s n _ _ _ _ _ _ Hd Hreg)).
  rewrite Hintro. page_steps s n c Hc Hbg Hfg.
  rewrite (bind_ok _ _ _ _ _ (kichwa_on_page s n _ _ _ _ _ _ Hd Hreg)).
  rewrite Hpueblos. unfold bind at 1. unfold lift at 1. cbn [rbind items].
  rewrite (for_each_on_page s n _ _ region_value _ (region_block pr bg fg)).
  - unfold with_page. repeat rewrite <- app_assoc. reflexivity.
  - intros r b. apply (region_body_on_page s n _ _ c bg fg pr r b Hc Hbg Hfg Hpr).
Qed.

Lemma regions_page_witness :
  exists intro,
    map (fun r => (fst (fst r), length (snd r)))
        (regions_of (at_path load_kichwa_data ["regiones"; "pueblos"]))
    = [("Kichwas de la Sierra", 12); ("Kichwas de la Amazonía", 4)] /\
    render Regions (fresh (started "03-11-2026"))
    = (Ok tt,
       with_page (fresh (started "03-11-2026")) [] "Regiones" (Some "#F5F5DC")
         ([subtitle_label "Pueblos Kichwas por Regiones Geográficas";
           ScrolledText intro 4 "#F5F5DC" "#343e40"]
          ++ map (region_block "#8B2323" "#F5F5DC" "#343e40")
                 (regions_of (at_path load_kichwa_data ["regiones"; "pueblos"])))).
Proof.
  eexists. split; [vm_compute; reflexivity |].
  eapply (regions_page (fresh (started "03-11-2026")) [] palette
            "#F5F5DC" "#343e40" "#8B2323" load_kichwa_data
            (at_path load_kichwa_data ["regiones"]));
    vm_compute; reflexivity.
Defined.

(** X10: the traditions page, for any content store and any colours
    that hold what the method reads: the introduction, one titled
    entry per festivity, the clothing paragraph, one titled entry per
    craft, the music paragraph and the instruments laid out in two
    columns under a plain heading. *)
Theorem traditions_page
  (s : App) (n : list Tab) (c : list (string * string)) (bg fg sec : string)
  (store trad : Value) (intro clothing music : string)
  (festivals crafts : list (string * string)) (instruments : list string) :
  notebook s = Some n ->
  colors s = Some c ->
  assoc "background" c = Some bg ->
  assoc "text" c = Some fg ->
  assoc "secondary" c = Some sec ->
  kichwa_data s = Some store ->
  getitem store "tradiciones" = Ok trad ->
  getitem trad "introduccion" = Ok (VStr intro) ->
  getitem trad "festividades" = Ok (dict_of_strings festivals) ->
  getitem trad "vestimenta" = Ok (VStr clothing) ->
  getitem trad "artesanias" = Ok (dict_of_strings crafts) ->
  getitem trad "musica_danza" = Ok (VStr music) ->
  getitem trad "instrumentos_musicales" = Ok (VList (map VStr instruments)) ->
  render Traditions s
  = (Ok tt,
     with_page s n "Tradiciones" (Some bg)
       ([subtitle_label "Tradiciones y Costumbres";
         ScrolledText intro 4 bg fg;
         subtitle_label "Principales Festividades"]
        ++ map (fun p => entry sec (fst p) (snd p)) festivals
        ++ [subtitle_label "Vestimenta Tradicional";
            ScrolledText clothing 6 bg fg;
            subtitle_label "Artesanías"]
        ++ map (fun p => entry sec (fst p) (snd p)) crafts
        ++ [subtitle_label "Música y Danza";
            ScrolledText music 5 bg fg;
            Label "Instrumentos Musicales Tradicionales" None None;
            Frame (place_from 0 instruments)])).
Proof.
  intros Hn Hc Hbg Hfg Hsec Hd Htrad Hintro Hfest Hcloth Hcraft Hmusic Hinst.
  cbn [render]. unfold SecondDefinition.create_traditions_tab.
  rewrite (bind_ok _ _ _ _ _ (open_tab_on_page _ s n c bg Hn Hc Hbg)).
  rewrite (bind_ok _ _ _ _ _ (kichwa_on_page s n _ _ _ _ _ _ Hd Htrad)).
  page_steps s n c Hc Hbg Hfg.
  rewrite Hintro. page_steps s n c Hc Hbg Hfg.
  rewrite Hfest. unfold bind at 1. unfold lift at 1.
  cbn [rbind items dict_of_strings].
  erewrite bind_ok
    by (apply (for_each_on_page s n _ _ _ _ (fun p => entry sec (fst p) (snd p)));
        intros [k v] b; apply (titled_on_page s n _ _ c Hc); exact Hsec).
  page_steps s n c Hc Hbg Hfg.
  rewrite Hcloth. page_steps s n c Hc Hbg Hfg.
  rewrite Hcraft. unfold bind at 1. unfold lift at 1.
  cbn [rbind items dict_of_strings].
  erewrite bind_ok
    by (apply (for_each_on_page s n _ _ _ _ (fun p => entry sec (fst p) (snd p)));
        intros [k v] b; apply (titled_on_page s n _ _ c Hc); exact Hsec).
  page_steps s n c Hc Hbg Hfg.
  rewrite Hmusic. page_steps s n c Hc Hbg Hfg.
  rewrite Hinst. unfold bind at 1. unfold lift at 1. cbn [rbind iter].
  rewrite (bind_ok _ _ _ _ _ (two_columns_cells instruments _)).
  rewrite (pack_on_page s n). unfold with_page.
  repeat rewrite <- app_assoc. reflexivity.
Qed.

Lemma traditions_page_witness :
  exists intro clothing music,
    render Traditions (fresh (started "03-11-2026"))
    = (Ok tt,
       with_page (fresh (started "03-11-2026")) [] "Tradiciones" (Some "#F5F5DC")
         ([subtitle_label "Tradiciones y Costumbres";
           ScrolledText intro 4 "#F5F5DC" "#343e40";
           subtitle_label "Principales Festividades"]
          ++ map (fun p => entry "#CD853F" (fst p) (snd p))
                 (pairs_of (at_path load_kichwa_data ["tradiciones"; "festividades"]))
          ++ [subtitle_label "Vestimenta Tradicional";
              ScrolledText clothing 6 "#F5F5DC" "#343e40";
              subtitle_label "Artesanías"]
          ++ map (fun p => entry "#CD853F" (fst p) (snd p))
                 (pairs_of (at_path load_kichwa_data ["tradiciones"; "artesanias"]))
          ++ [subtitle_label "Música y Danza";
              ScrolledText music 5 "#F5F5DC" "#343e40";
              Label "Instrumentos Musicales Tradicionales" None None;
              Frame (place_from 0
                       (texts_of (list_items
                                    (at_path load_kichwa_data
                                       ["tradiciones"; "instrumentos_musicales"]))))])).
Proof.
  do 3 eexists.
  eapply (traditions_page (fresh (started "03-11-2026")) [] palette
            "#F5F5DC" "#343e40" "#CD853F" load_kichwa_data
            (at_path load_kichwa_data ["tradiciones"]));
    vm_compute; reflexivity.
Defined.

(** X11: the worldview page, for any content store and any colours
    that hold what the method reads: the introduction, one titled
    entry per principle, then the paragraphs on nature and on
    medicine. *)
Theorem worldview_page
  (s : App) (n : list Tab) (c : list (string * string)) (bg fg sec : string)
  (store cosmo : Value) (intro nature medicine : string)
  (principles : list (string * string)) :
  notebook s = Some n ->
  colors s = Some c ->
  assoc "background" c = Some bg ->
  assoc "text" c = Some fg ->
  assoc "secondary" c = Some sec ->
  kichwa_data s = Some store ->
  getitem store "cosmovision" = Ok cosmo ->
  getitem cosmo "introduccion" = Ok (VStr intro) ->
  getitem cosmo "principios_fundamentales" = Ok (dict_of_strings principles) ->
  getitem cosmo "relacion_naturaleza" = Ok (VStr nature) ->
  getitem cosmo "medicina_tradicional" = Ok (VStr medicine) ->
  render Worldview s
  = (Ok tt,
     with_page s n "Cosmovisión" (Some bg)
       ([subtitle_label "Cosmovisión Kichwa";
         ScrolledText intro 4 bg fg;
         subtitle_label "Principios Fundamentales"]
        ++ map (fun p => entry sec (fst p) (snd p)) principles
        ++ [subtitle_label "Relación con la Naturaleza";
            ScrolledText nature 6 bg fg;
            subtitle_label "Medicina Tradicional";
            ScrolledText medicine 6 bg fg])).
Proof.
  intros Hn Hc Hbg Hfg Hsec Hd Hcosmo Hintro Hprinc Hnature Hmed.
  cbn [render]. unfold SecondDefinition.create_worldview_tab.
  rewrite (bind_ok _ _ _ _ _ (open_tab_on_page _ s n c bg Hn Hc Hbg)).
  rewrite (bind_ok _ _ _ _ _ (kichwa_on_page s n _ _ _ _ _ _ Hd Hcosmo)).
  page_steps s n c Hc Hbg Hfg.
  rewrite Hintro. page_steps s n c Hc Hbg Hfg.
  rewrite Hprinc. unfold bind at 1. unfold lift at 1.
  cbn [rbind items dict_of_strings].
  erewrite bind_ok
    by (apply (for_each_on_page s n _ _ _ _ (fun p => entry sec (fst p) (snd p)));
        intros [k v] b; apply (titled_on_page s n _ _ c Hc); exact Hsec).
  page_steps s n c Hc Hbg Hfg.
  rewrite Hnature. page_steps s n c Hc Hbg Hfg.
  rewrite Hmed.
  rewrite (bind_ok _ _ _ _ _ (scrolled_on_page s n _ _ c Hc _ _ _ _ _ Hbg Hfg)).
  rewrite (pack_on_page s n). unfold with_page.
  repeat rewrite <- app_assoc. reflexivity.
Qed.

Lemma worldview_page_witness :
  exists intro nature medicine,
    render Worldview (fresh (started "03-11-2026"))
    = (Ok tt,
       with_page (fresh (started "03-11-2026")) [] "Cosmovisión" (Some "#F5F5DC")
         ([subtitle_label "Cosmovisión Kichwa";
           ScrolledText intro 4 "#F5F5DC" "#343e40";
           subtitle_label "Principios Fundamentales"]
          ++ map (fun p => entry "#CD853F" (fst p) (snd p))
                 (pairs_of (at_path load_kichwa_data
                                    ["cosmovision"; "principios_fundamentales"]))
          ++ [subtitle_label "Relación con la Naturaleza";
              ScrolledText nature 6 "#F5F5DC" "#343e40";
              subtitle_label "Medicina Tradicional";
              ScrolledText medicine 6 "#F5F5DC" "#343e40"])).
Proof.
  do 3 eexists.
  eapply (worldview_page (fresh (started "03-11-2026")) [] palette
            "#F5F5DC" "#343e40" "#CD853F" load_kichwa_data
            (at_path load_kichwa_data ["cosmovision"]));
    vm_compute; reflexivity.
Defined.

(** ** Further properties: a page does not depend on the pages before it *)

Section PageLocal.

Variable n : list Tab.

Lemma local_ret {A} (a : A) : page_local n (ret a).
Proof. intros s1 s2 H. split; [reflexivity | exact H]. Qed.

Lemma local_lift {A} (r : result A) : page_local n (lift r).
Proof. intros s1 s2 H. split; [reflexivity | exact H]. Qed.

Lemma local_bind {A B} (m : M A) (k : A -> M B) :
  page_local n m -> (forall a, page_local n (k a)) -> page_local n (bind m k).
Proof.
  intros Hm Hk s1 s2 H. unfold bind.
  destruct (Hm s1 s2 H) as [Hr Hs].
  destruct (m s1) as [[a1 | e1] s1'], (m s2) as [[a2 | e2] s2']; simpl in *;
    try discriminate Hr.
  - injection Hr as ->. apply Hk. exact Hs.
  - injection Hr as ->. split; [reflexivity | exact Hs].
Qed.

Lemma local_for_fold {A S} (body : S -> A -> M S) (l : list A) :
  (forall acc x, page_local n (body acc x)) ->
  forall acc, page_local n (for_fold l acc body).
Proof.
  intro Hbody. induction l as [| x l IH]; intro acc; simpl.
  - apply local_ret.
  - apply local_bind; [apply Hbody | exact IH].
Qed.

Lemma local_for_each {A} (body : A -> M unit) (l : list A) :
  (forall x, page_local n (body x)) -> page_local n (for_each l body).
Proof. intro H. unfold for_each. apply local_for_fold. intros _ x. apply H. Qed.

Lemma local_colors_getitem (name : string) : page_local n (colors_getitem name).
Proof.
  intros s1 s2 H. pose proof (f_equal colors (proj1 H)) as Hc.
  change (colors s1 = colors s2) in Hc.
  unfold colors_getitem, bind, get_attr, lift. rewrite Hc.
  destruct (colors s2); (split; [reflexivity | exact H]).
Qed.

Lemma local_kichwa_data_getitem (key : string) :
  page_local n (kichwa_data_getitem key).
Proof.
  intros s1 s2 H. pose proof (f_equal kichwa_data (proj1 H)) as Hd.
  change (kichwa_data s1 = kichwa_data s2) in Hd.
  unfold kichwa_data_getitem, bind, get_attr, lift. rewrite Hd.
  destruct (kichwa_data s2); (split; [reflexivity | exact H]).
Qed.

Lemma update_last_prefix (f : Tab -> Tab) (p : list Tab) :
  p <> [] ->
  update_last f (n ++ p) = (n ++ update_last f p)%list /\ update_last f p <> [].
Proof.
  intro Hp. destruct (exists_last Hp) as [q [t ->]].
  rewrite app_assoc. rewrite !update_last_app. rewrite app_assoc.
  split; [reflexivity |]. intro E. destruct q; discriminate E.
Qed.

Lemma local_update_last (f : Tab -> Tab) (s1 s2 : App) :
  same_but_prefix n s1 s2 ->
  exists p1 p2,
    notebook s1 = Some p1 /\ notebook s2 = Some p2 /\
    same_but_prefix n (set_notebook (update_last f p1) s1)
                      (set_notebook (update_last f p2) s2).
Proof.
  intros [Hf [p [Hp [H2 H1]]]].
  exists (n ++ p)%list, p. split; [exact H1 |]. split; [exact H2 |].
  destruct (update_last_prefix f p Hp) as [E Hne].
  split; [exact Hf |].
  exists (update_last f p). split; [exact Hne |]. split; [reflexivity |].
  simpl. rewrite E. reflexivity.
Qed.

Lemma local_pack (w : Widget) : page_local n (pack w).
Proof.
  intros s1 s2 H.
  destruct (local_update_last
              (fun t => mkTab (tab_text t) (tab_canvas t) (tab_body t ++ [w]))
              s1 s2 H) as [p1 [p2 [H1 [H2 Hs]]]].
  unfold pack, bind, get_attr, modify. rewrite H1, H2.
  split; [reflexivity | exact Hs].
Qed.

Lemma local_create_canvas : page_local n create_canvas.
Proof.
  unfold create_canvas.
  apply local_bind; [apply local_colors_getitem |].
  intros bg s1 s2 H.
  destruct (local_update_last
              (fun t => mkTab (tab_text t) (Some bg) (tab_body t))
              s1 s2 H) as [p1 [p2 [H1 [H2 Hs]]]].
  unfold bind, get_attr, modify. rewrite H1, H2.
  split; [reflexivity | exact Hs].
Qed.

End PageLocal.

Ltac local_step :=
  match goal with
  | |- page_local _ (bind _ _) => apply local_bind; [| intro]
  | |- page_local _ (ret _) => apply local_ret
  | |- page_local _ (lift _) => apply local_lift
  | |- page_local _ (colors_getitem _) => apply local_colors_getitem
  | |- page_local _ (kichwa_data_getitem _) => apply local_kichwa_data_getitem
  | |- page_local _ (pack _) => apply local_pack
  | |- page_local _ (subtitle _) => apply local_pack
  | |- page_local _ create_canvas => apply local_create_canvas
  | |- page_local _ (for_each _ _) => apply local_for_each; intro
  | |- page_local _ (for_fold _ _ _) => apply local_for_fold; intros
  | |- page_local _ (scrolled_text _ _) => unfold scrolled_text
  | |- page_local _ (two_columns _) => unfold two_columns
  | |- page_local _ (titled_entry _ _ _) => unfold titled_entry
  | |- page_local _ (if ?b then _ else _) => destruct b
  | |- page_local _ (match ?x with _ => _ end) => destruct x
  | |- page_local _ ((match ?x with _ => _ end) _) => destruct x
  | |- page_local _ (let _ := _ in _) => cbv zeta
  end.

Ltac local_auto := repeat (cbv beta; local_step).

Lemma adds_page_local {A} (title : string) (k : M A) (s : App) (n : list Tab) :
  page_local n k ->
  fst (bind (notebook_add title) (fun _ => k) (set_notebook n s))
  = fst (bind (notebook_add title) (fun _ => k) (set_notebook [] s)) /\
  exists p,
    notebook (snd (bind (notebook_add title) (fun _ => k) (set_notebook [] s)))
    = Some p /\
    notebook (snd (bind (notebook_add title) (fun _ => k) (set_notebook n s)))
    = Some (n ++ p)%list.
Proof.
  intro Hk.
  rewrite (bind_ok _ _ _ _ _ (notebook_add_ok title (set_notebook n s) n eq_refl)).
  rewrite (bind_ok _ _ _ _ _ (notebook_add_ok title (set_notebook [] s) [] eq_refl)).
  destruct (Hk (set_notebook (n ++ [mkTab title None []]) (set_notebook n s))
               (set_notebook ([] ++ [mkTab title None []]) (set_notebook [] s)))
    as [Hr [_ [p [_ [H2 H1]]]]].
  { split; [reflexivity |].
    exists [mkTab title None []]. split; [discriminate |]. split; reflexivity. }
  split; [exact Hr |]. exists p. split; [exact H2 | exact H1].
Qed.

(** X2: a tab method builds the same page whatever pages the
    notebook already holds: on a notebook holding the pages [n] it
    returns or raises exactly as it does on an empty notebook, and it
    leaves the pages [n] followed by what it leaves on the empty
    notebook. *)
Theorem render_page_independent (t : Topic) (s : App) (n : list Tab) :
  fst (render t (set_notebook n s)) = fst (render t (set_notebook [] s)) /\
  exists p,
    notebook (snd (render t (set_notebook [] s))) = Some p /\
    notebook (snd (render t (set_notebook n s))) = Some (n ++ p)%list.
Proof.
  destruct t; cbn [render];
    [ unfold SecondDefinition.create_overview_tab
    | unfold SecondDefinition.create_regions_tab
    | unfold SecondDefinition.create_language_tab
    | unfold SecondDefinition.create_traditions_tab
    | unfold SecondDefinition.create_worldview_tab
    | unfold SecondDefinition.create_design_tab ];
    unfold open_tab; rewrite !bind_assoc;
    (apply adds_page_local; local_auto).
Qed.

(** ** Further properties: constructing again *)

